(** * asmcovtrace: the ptrace shim of asmcov

    A shallow embedding of [asmcovtrace.c] (two functions,
    [asmcovtrace_open] and [asmcovtrace_next]) and the properties of the
    tracing driver that the design document states about them.

    The C code is a straight line of libc calls ([fork], [ptrace],
    [execve], [wait], [err]) with branches on what they return and on
    [errno].  It is embedded in a small monad over a [world]: the value of
    [errno], the log of calls issued so far, and a [kernel] that answers
    each call from the log.  Every theorem quantifies over the kernel, so
    it holds whatever the operating system answers.

    C integers are integers of [Z]: the values of [pid_t], [int] and
    [unsigned long long] objects come from the kernel's answers and are
    passed on unchanged; the one conversion the code performs, of the
    [int] exit status to the [unsigned long long] return type, is written
    out ([to_ull]). *)

From Stdlib Require Import ZArith List String Bool Lia.
From ExtLib Require Import Structures.Monad.
Import ListNotations.
Import MonadNotation.

Local Open Scope string_scope.
Local Open Scope list_scope.
Local Open Scope monad_scope.
Local Open Scope Z_scope.

(** ** Platform definitions

    The README fixes the platform: x86_64 Linux.  The macros and the
    register structure below are those of the system headers the C file
    includes; they are not part of the repository. *)

Module Platform.

(** [<asm-generic/errno-base.h>]: [#define ESRCH 3]. *)
Definition ESRCH : Z := 3.

(** [<bits/waitstatus.h>]: [((status) & 0x7f)]. *)
Definition WTERMSIG (status : Z) : Z := Z.land status 0x7f.

(** [<bits/waitstatus.h>]: [(__WTERMSIG(status) == 0)]. *)
Definition WIFEXITED (status : Z) : bool := WTERMSIG status =? 0.

(** [<bits/waitstatus.h>]: [(((status) & 0xff00) >> 8)]. *)
Definition WEXITSTATUS (status : Z) : Z := Z.shiftr (Z.land status 0xff00) 8.

(** [<bits/waitstatus.h>]: [((ret) << 8 | (sig))], the status word the
    kernel builds for a process that called [exit(ret)]. *)
Definition W_EXITCODE (ret sig : Z) : Z := Z.lor (Z.shiftl ret 8) sig.

(** [<bits/waitstatus.h>]: [((sig) << 8 | 0x7f)], the status word of a
    process stopped by signal [sig]. *)
Definition W_STOPCODE (sig : Z) : Z := Z.lor (Z.shiftl sig 8) 0x7f.

(** [<asm/signal.h>]: the signal a single-stepped tracee stops with. *)
Definition SIGTRAP : Z := 5.

(** [<sys/user.h>], x86_64: every field is an [unsigned long long]. *)
Record user_regs_struct : Type := mk_regs {
  r15 : Z; r14 : Z; r13 : Z; r12 : Z; rbp : Z; rbx : Z; r11 : Z; r10 : Z;
  r9 : Z; r8 : Z; rax : Z; rcx : Z; rdx : Z; rsi : Z; rdi : Z;
  orig_rax : Z; rip : Z; cs : Z; eflags : Z; rsp : Z; ss : Z;
  fs_base : Z; gs_base : Z; ds : Z; es : Z; fs : Z; gs : Z
}.

(** The three [ptrace] requests the file issues. *)
Inductive ptrace_request : Type :=
| PTRACE_TRACEME
| PTRACE_GETREGS
| PTRACE_SINGLESTEP.

(** Width of [unsigned long long], and the conversion C applies to an
    [int] returned from a function of that type. *)
Definition ULLONG_WIDTH : Z := 64.

Definition to_ull (x : Z) : Z := x mod 2 ^ ULLONG_WIDTH.

End Platform.
Import Platform.

#[global] Arguments WIFEXITED : simpl never.
#[global] Arguments WEXITSTATUS : simpl never.
#[global] Arguments to_ull : simpl never.

(** ** The world the code runs in *)

(** One entry per call the code issues, in program order.  [errno = 0] is
    a store to a thread-local object, logged like the calls so that its
    place among them can be stated. *)
Inductive event : Type :=
| EvFork
| EvPtrace (request : ptrace_request) (pid : Z)
| EvExecve (path : string) (argv : list string)
| EvWait
| EvErrnoStore (v : Z).

(** What a libc call hands back: its return value and, when it fails, the
    value it stores in [errno] ([None] leaves [errno] as it was). *)
Record reply (A : Type) : Type := mk_reply {
  value : A;
  sets_errno : option Z
}.
Arguments mk_reply {A} _ _.
Arguments value {A} _.
Arguments sets_errno {A} _.

(** The operating system, as the code sees it: an answer to every call,
    chosen from the calls made before.
    - [k_ptrace] answers with the return value and the contents of the
      buffer [data] points to after the call (read by the code only after
      a successful [PTRACE_GETREGS]);
    - [k_execve] answers [None] when the image is replaced (the call does
      not return);
    - [k_wait] answers [None] when no child ever changes state (the call
      blocks for ever), else with the contents of [status] after the call
      (the code discards the return value of [wait]). *)
Record kernel : Type := mk_kernel {
  k_fork : list event -> reply Z;
  k_ptrace : list event -> ptrace_request -> Z -> reply (Z * user_regs_struct);
  k_execve : list event -> string -> list string -> option (reply Z);
  k_wait : list event -> option (reply Z)
}.

Record world : Type := mk_world {
  errno : Z;
  log : list event;
  os : kernel
}.

(** An argument of [err]'s format string. *)
Inductive err_arg : Type :=
| ArgStr (s : string)
| ArgInt (n : Z).

(** What [err(eval, fmt, ...)] writes to standard error: the formatted
    message followed by the text of the current [errno]. *)
Record diagnostic : Type := mk_diagnostic {
  d_fmt : string;
  d_args : list err_arg;
  d_errno : Z
}.

(** How a call of one of the two functions ends. *)
Inductive outcome (A : Type) : Type :=
| Returned (a : A)                                  (* returns to its caller *)
| Aborted (eval : Z) (d : diagnostic)               (* [err]: exit(eval) *)
| Replaced (path : string) (argv : list string)     (* [execve] succeeded *)
| Blocked.                                          (* [wait] never returned *)
Arguments Returned {A} _.
Arguments Aborted {A} _ _.
Arguments Replaced {A} _ _.
Arguments Blocked {A}.

(** ** The monad *)

Definition M (A : Type) : Type := world -> outcome A * world.

Definition M_ret {A : Type} (a : A) : M A := fun w => (Returned a, w).

Definition M_bind {A B : Type} (m : M A) (k : A -> M B) : M B :=
  fun w =>
    match m w with
    | (Returned a, w') => k a w'
    | (Aborted eval d, w') => (Aborted eval d, w')
    | (Replaced path argv, w') => (Replaced path argv, w')
    | (Blocked, w') => (Blocked, w')
    end.

#[global] Instance Monad_M : Monad M :=
  {| ret := @M_ret; bind := @M_bind |}.

Definition emit (e : event) (w : world) : world :=
  {| errno := errno w; log := log w ++ [e]; os := os w |}.

Definition store_errno (e : option Z) (w : world) : world :=
  {| errno := match e with Some v => v | None => errno w end;
     log := log w; os := os w |}.

(** [fork()] *)
Definition fork : M Z := fun w =>
  let r := k_fork (os w) (log w) in
  (Returned (value r), store_errno (sets_errno r) (emit EvFork w)).

(** [ptrace(request, pid, NULL, &regs)]: the return value and [regs]. *)
Definition ptrace_regs (request : ptrace_request) (pid : Z)
  : M (Z * user_regs_struct) := fun w =>
  let r := k_ptrace (os w) (log w) request pid in
  (Returned (value r),
   store_errno (sets_errno r) (emit (EvPtrace request pid) w)).

(** [ptrace(request, pid, NULL, NULL)] *)
Definition ptrace (request : ptrace_request) (pid : Z) : M Z :=
  r <- ptrace_regs request pid ;; ret (fst r).

(** [execve(path, argv, NULL)] *)
Definition execve (path : string) (argv : list string) : M Z := fun w =>
  let w' := emit (EvExecve path argv) w in
  match k_execve (os w) (log w) path argv with
  | None => (Replaced path argv, w')
  | Some r => (Returned (value r), store_errno (sets_errno r) w')
  end.

(** [wait(&status)]: the contents of [status] after the call. *)
Definition wait : M Z := fun w =>
  let w' := emit EvWait w in
  match k_wait (os w) (log w) with
  | None => (Blocked, w')
  | Some r => (Returned (value r), store_errno (sets_errno r) w')
  end.

(** [errno = v] *)
Definition set_errno (v : Z) : M unit := fun w =>
  (Returned tt, store_errno (Some v) (emit (EvErrnoStore v) w)).

(** reading [errno] *)
Definition get_errno : M Z := fun w => (Returned (errno w), w).

(** [err(eval, fmt, ...)]: never returns. *)
Definition err {A : Type} (eval : Z) (fmt : string) (args : list err_arg)
  : M A := fun w =>
  (Aborted eval {| d_fmt := fmt; d_args := args; d_errno := errno w |}, w).

(** ** The two functions of [asmcovtrace.c] *)

(** [[
pid_t asmcovtrace_open(const char *const path, char *const argv[]){
	pid_t pid;
	pid = fork();
	if(pid == -1){
		err(1, "fork");
	}
	else if(pid == 0){
		if(ptrace(PTRACE_TRACEME, 0, NULL, NULL) == -1){
			err(1, "ptrace");
		}
		execve(path, argv, NULL);
		err(1, "exec: %s", path);
	}
	return pid;
}
]] *)
Definition asmcovtrace_open (path : string) (argv : list string) : M Z :=
  pid <- fork ;;
  (if pid =? -1 then
     err 1 "fork" []
   else if pid =? 0 then
     r <- ptrace PTRACE_TRACEME 0 ;;
     (if r =? -1 then err 1 "ptrace" [] else ret tt) ;;
     execve path argv ;;
     err 1 "exec: %s" [ArgStr path]
   else ret tt) ;;
  ret pid.

(** [[
unsigned long long asmcovtrace_next(const pid_t pid){
	struct user_regs_struct regs;
	int status;
	wait(&status);
	if(WIFEXITED(status)){
		return WEXITSTATUS(status);
	}
	errno = 0;
	if(ptrace(PTRACE_GETREGS, pid, NULL, &regs) == -1 ||
	   ptrace(PTRACE_SINGLESTEP, pid, NULL, NULL) == -1){
		if(errno == ESRCH){
			return 0;
		}
		err(1, "ptrace: %d", errno);
	}
	return regs.rip;
}
]]
    The early [return]s become the branches of the conditionals; [a || b]
    is [if a then true else b]. *)
Definition asmcovtrace_next (pid : Z) : M Z :=
  status <- wait ;;
  if WIFEXITED status then
    ret (to_ull (WEXITSTATUS status))
  else
    set_errno 0 ;;
    g <- ptrace_regs PTRACE_GETREGS pid ;;
    let regs := snd g in
    failed <- (if fst g =? -1 then ret true
               else s <- ptrace PTRACE_SINGLESTEP pid ;; ret (s =? -1)) ;;
    if (failed : bool) then
      e <- get_errno ;;
      if e =? ESRCH then ret 0
      else e' <- get_errno ;; err 1 "ptrace: %d" [ArgInt e']
    else
      ret (rip regs).

(** ** Reading a run *)

(** How the call ends, and the calls it issued (what it appended to the
    log), for a function [m] run from the world [w]. *)
Definition outcome_of {A : Type} (m : M A) (w : world) : outcome A :=
  fst (m w).

Definition issued {A : Type} (m : M A) (w : world) : list event :=
  skipn (List.length (log w)) (log (snd (m w))).

(** The kernel's answers to the three calls of [asmcovtrace_next], each
    taken at the log the call is issued from. *)
Definition wait_answer (w : world) : option (reply Z) :=
  k_wait (os w) (log w).

Definition getregs_answer (pid : Z) (w : world)
  : reply (Z * user_regs_struct) :=
  k_ptrace (os w) (log w ++ [EvWait; EvErrnoStore 0]) PTRACE_GETREGS pid.

Definition singlestep_answer (pid : Z) (w : world)
  : reply (Z * user_regs_struct) :=
  k_ptrace (os w)
    (log w ++ [EvWait; EvErrnoStore 0; EvPtrace PTRACE_GETREGS pid])
    PTRACE_SINGLESTEP pid.

(** A libc call fails by returning -1 with [errno] set. *)
Definition fails_with {A : Type} (r : reply (Z * A)) (e : Z) : Prop :=
  fst (value r) = -1 /\ sets_errno r = Some e.

Definition succeeds {A : Type} (r : reply (Z * A)) : Prop :=
  fst (value r) <> -1.

(** The contents of [status] after the [wait] of [asmcovtrace_next], when
    that [wait] returns. *)
Definition wait_status (w : world) : option Z :=
  option_map value (wait_answer w).

(** *** The situations a call of [asmcovtrace_next] can meet *)

(** The status word found after the wait reads as a normal exit with
    status [c]: what a wait that reports an exit leaves.  The code does
    not test what [wait] returns, so a wait that failed and left a word
    reading so is included. *)
Definition exited_with (w : world) (c : Z) : Prop :=
  exists status,
    wait_status w = Some status /\
    WIFEXITED status = true /\ WEXITSTATUS status = c.

(** The wait reports something else than a normal exit: the case in which
    the code goes on to read the registers of a stopped tracee. *)
Definition stopped (w : world) : Prop :=
  exists status, wait_status w = Some status /\ WIFEXITED status = false.

(** The tracee is stopped, both requests succeed, and the register read
    finds the instruction pointer at [ip]. *)
Definition stopped_at (pid : Z) (w : world) (ip : Z) : Prop :=
  stopped w /\
  succeeds (getregs_answer pid w) /\
  rip (snd (value (getregs_answer pid w))) = ip /\
  succeeds (singlestep_answer pid w).

(** The tracee is stopped and the register read fails with [e], or the
    register read succeeds and the step request fails with [e]. *)
Definition request_fails (pid : Z) (w : world) (e : Z) : Prop :=
  stopped w /\
  (fails_with (getregs_answer pid w) e \/
   (succeeds (getregs_answer pid w) /\
    fails_with (singlestep_answer pid w) e)).

(** [true] on the [wait] entries of a log, and on its [ptrace] entries. *)
Definition is_wait (e : event) : bool :=
  match e with EvWait => true | _ => false end.

Definition is_ptrace (e : event) : bool :=
  match e with EvPtrace _ _ => true | _ => false end.

Definition is_execve (e : event) : bool :=
  match e with EvExecve _ _ => true | _ => false end.

(** The world after the calls of [asmcovtrace_next], one definition per
    call, each from the answer the kernel gave. *)
Definition after_wait (st : reply Z) (w : world) : world :=
  store_errno (sets_errno st) (emit EvWait w).

Definition after_getregs (pid : Z) (st : reply Z) (w : world) : world :=
  store_errno (sets_errno (getregs_answer pid w))
    (emit (EvPtrace PTRACE_GETREGS pid)
       (store_errno (Some 0) (emit (EvErrnoStore 0) (after_wait st w)))).

Definition after_singlestep (pid : Z) (st : reply Z) (w : world) : world :=
  store_errno (sets_errno (singlestep_answer pid w))
    (emit (EvPtrace PTRACE_SINGLESTEP pid) (after_getregs pid st w)).

(** What [asmcovtrace_next] does once a request has failed, from the world
    the failure leaves. *)
Definition after_failure (w : world) : outcome Z * world :=
  if errno w =? ESRCH then (Returned 0, w)
  else (Aborted 1 {| d_fmt := "ptrace: %d";
                     d_args := [ArgInt (errno w)];
                     d_errno := errno w |}, w).

(** *** The answers [asmcovtrace_open] gets *)

Definition fork_answer (w : world) : reply Z := k_fork (os w) (log w).

Definition traceme_answer (w : world) : reply (Z * user_regs_struct) :=
  k_ptrace (os w) (log w ++ [EvFork]) PTRACE_TRACEME 0.

Definition execve_answer (path : string) (argv : list string) (w : world)
  : option (reply Z) :=
  k_execve (os w) (log w ++ [EvFork; EvPtrace PTRACE_TRACEME 0]) path argv.

(** The world after each call of [asmcovtrace_open]. *)
Definition after_fork (w : world) : world :=
  store_errno (sets_errno (fork_answer w)) (emit EvFork w).

Definition after_traceme (w : world) : world :=
  store_errno (sets_errno (traceme_answer w))
    (emit (EvPtrace PTRACE_TRACEME 0) (after_fork w)).

Definition after_execve (path : string) (argv : list string) (w : world)
  : world :=
  let w' := emit (EvExecve path argv) (after_traceme w) in
  match execve_answer path argv w with
  | None => w'
  | Some r => store_errno (sets_errno r) w'
  end.

(** [err(1, fmt, ...)] called in the world [w]. *)
Definition abort (fmt : string) (args : list err_arg) (w : world)
  : outcome Z * world :=
  (Aborted 1 {| d_fmt := fmt; d_args := args; d_errno := errno w |}, w).

(** The world [w] entered with another value in [errno]. *)
Definition with_errno (e : Z) (w : world) : world :=
  {| errno := e; log := log w; os := os w |}.

(** ** Kernels to run the code against *)

(** [<asm-generic/errno-base.h>] *)
Definition EPERM : Z := 1.
Definition ENOENT : Z := 2.
Definition EAGAIN : Z := 11.

(** A register file with the instruction pointer at [ip]. *)
Definition regs_at (ip : Z) : user_regs_struct :=
  mk_regs 0 0 0 0 0 0 0 0 0 0 0 0 0 0 0 0 ip 0 0 0 0 0 0 0 0 0 0.

Definition ok {A : Type} (a : A) : reply A := mk_reply a None.

Definition failure (e : Z) : reply (Z * user_regs_struct) :=
  mk_reply (-1, regs_at 0) (Some e).

(** A kernel that answers each kind of call the same way whatever came
    before. *)
Definition fixed_kernel
    (forked : reply Z)
    (traceme getregs singlestep : reply (Z * user_regs_struct))
    (execd : option (reply Z)) (waited : option (reply Z)) : kernel :=
  {| k_fork := fun _ => forked;
     k_ptrace := fun _ request _ =>
       match request with
       | PTRACE_TRACEME => traceme
       | PTRACE_GETREGS => getregs
       | PTRACE_SINGLESTEP => singlestep
       end;
     k_execve := fun _ _ _ => execd;
     k_wait := fun _ => waited |}.

Definition boot (k : kernel) : world :=
  {| errno := 0; log := []; os := k |}.

(** Worlds for the three ways a call of [asmcovtrace_next] can end by
    returning: the child exited with status [c]; the tracee is stopped at
    [ip]; the tracee is stopped and the register read finds it gone. *)
Definition answered (getregs singlestep : reply (Z * user_regs_struct))
    (status : Z) : world :=
  boot (fixed_kernel (ok 0) (ok (0, regs_at 0)) getregs singlestep
          None (Some (ok status))).

Definition exit_world (c : Z) : world :=
  answered (ok (0, regs_at 0)) (ok (0, regs_at 0)) (W_EXITCODE c 0).

Definition stop_world (ip : Z) : world :=
  answered (ok (0, regs_at ip)) (ok (0, regs_at 0)) (W_STOPCODE SIGTRAP).

Definition race_world : world :=
  answered (failure ESRCH) (ok (0, regs_at 0)) (W_STOPCODE SIGTRAP).

(** The tracee is stopped at [ip] and gone when the step is requested. *)
Definition late_race_world (ip : Z) : world :=
  answered (ok (0, regs_at ip)) (failure ESRCH) (W_STOPCODE SIGTRAP).

(** The tracee is stopped and the register read is refused. *)
Definition refused_world : world :=
  answered (failure EPERM) (ok (0, regs_at 0)) (W_STOPCODE SIGTRAP).

(** Worlds for [asmcovtrace_open]: what [fork], [PTRACE_TRACEME] and
    [execve] answer. *)
Definition spawning (forked : reply Z)
    (traceme : reply (Z * user_regs_struct)) (execd : option (reply Z))
  : world :=
  boot (fixed_kernel forked traceme (ok (0, regs_at 0)) (ok (0, regs_at 0))
          execd None).

Definition fork_failed_world : world :=
  spawning (mk_reply (-1) (Some EAGAIN)) (ok (0, regs_at 0)) None.

Definition parent_world (child : Z) : world :=
  spawning (ok child) (ok (0, regs_at 0)) None.

Definition child_world : world :=
  spawning (ok 0) (ok (0, regs_at 0)) None.

Definition child_untraced_world : world :=
  spawning (ok 0) (failure EPERM) None.

Definition child_noexec_world : world :=
  spawning (ok 0) (ok (0, regs_at 0)) (Some (mk_reply (-1) (Some ENOENT))).

(** A scripted traced child, as the tracer meets it: the addresses of the
    instructions it executes, in order, then its exit status.  The child
    is stopped before instruction [n] once [n] single-steps were
    requested; it has exited once all were, and from then on every wait
    reports the exit and every request for it fails with [ESRCH]. *)
Record tracee : Type := mk_tracee {
  t_pid : Z;
  t_text : list Z;
  t_exit : Z
}.

Fixpoint steps_of (pid : Z) (h : list event) : nat :=
  match h with
  | [] => O
  | EvPtrace PTRACE_SINGLESTEP p :: h' =>
      if p =? pid then S (steps_of pid h') else steps_of pid h'
  | _ :: h' => steps_of pid h'
  end.

Definition tracee_kernel (t : tracee) : kernel :=
  {| k_fork := fun _ => ok (t_pid t);
     k_ptrace := fun h request pid =>
       match request with
       | PTRACE_TRACEME => ok (0, regs_at 0)
       | PTRACE_GETREGS =>
           match nth_error (t_text t) (steps_of (t_pid t) h) with
           | Some ip => if pid =? t_pid t then ok (0, regs_at ip)
                        else failure ESRCH
           | None => failure ESRCH
           end
       | PTRACE_SINGLESTEP =>
           match nth_error (t_text t) (steps_of (t_pid t) h) with
           | Some _ => if pid =? t_pid t then ok (0, regs_at 0)
                       else failure ESRCH
           | None => failure ESRCH
           end
       end;
     k_execve := fun _ _ _ => None;
     k_wait := fun h =>
       match nth_error (t_text t) (steps_of (t_pid t) h) with
       | Some _ => Some (ok (W_STOPCODE SIGTRAP))
       | None => Some (ok (W_EXITCODE (t_exit t) 0))
       end |}.

(** [n] successive calls of [asmcovtrace_next] on the same [pid], as a
    caller stepping the tracee makes them: what the calls return, up to
    the first that does not return. *)
Fixpoint next_n (n : nat) (pid : Z) (w : world) : list Z * world :=
  match n with
  | O => ([], w)
  | S n' =>
      match asmcovtrace_next pid w with
      | (Returned a, w') =>
          let (l, w'') := next_n n' pid w' in (a :: l, w'')
      | (_, w') => ([], w')
      end
  end.

(** The children of the design document's end-to-end scenarios: one
    instruction at 0x1000 then [exit(0)]; a loop of three instructions
    run five times then [exit(0)]. *)
Definition scenario_A : tracee :=
  {| t_pid := 4711; t_text := [0x1000]; t_exit := 0 |}.

Definition scenario_B : tracee :=
  {| t_pid := 4711;
     t_text := List.concat (List.repeat [0x2000; 0x2004; 0x2008] 5);
     t_exit := 0 |}.

(** ** Further readings of a run *)

(** The value a call leaves in [errno]. *)
Definition errno_left {A : Type} (m : M A) (w : world) : Z :=
  errno (snd (m w)).

(** One of the two requests of [asmcovtrace_next] returned -1: the
    register read, or the step request after a register read that did
    not. *)
Definition request_refused (pid : Z) (w : world) : Prop :=
  fst (value (getregs_answer pid w)) = -1 \/
  (succeeds (getregs_answer pid w) /\
   fst (value (singlestep_answer pid w)) = -1).

(** The world in which [asmcovtrace_next] tests [errno] after a refused
    request. *)
Definition refused_in (pid : Z) (st : reply Z) (w : world) : world :=
  if fst (value (getregs_answer pid w)) =? -1 then after_getregs pid st w
  else after_singlestep pid st w.

(** The four paths through [asmcovtrace_next], each with the answers that
    select it and the result it ends in. *)
Inductive next_path (pid : Z) (w : world) : outcome Z * world -> Prop :=
| path_blocked :
    wait_answer w = None ->
    next_path pid w (Blocked, emit EvWait w)
| path_exit (st : reply Z) :
    wait_answer w = Some st ->
    WIFEXITED (value st) = true ->
    next_path pid w (Returned (WEXITSTATUS (value st)), after_wait st w)
| path_refused (st : reply Z) :
    wait_answer w = Some st ->
    WIFEXITED (value st) = false ->
    request_refused pid w ->
    next_path pid w (after_failure (refused_in pid st w))
| path_step (st : reply Z) :
    wait_answer w = Some st ->
    WIFEXITED (value st) = false ->
    succeeds (getregs_answer pid w) ->
    succeeds (singlestep_answer pid w) ->
    next_path pid w
      (Returned (rip (snd (value (getregs_answer pid w)))),
       after_singlestep pid st w).

(** [true] on the entries of a log that create a process or replace the
    image. *)
Definition is_spawn (e : event) : bool :=
  match e with
  | EvFork | EvExecve _ _ => true
  | _ => false
  end.

(** [true] unless the entry is a [ptrace] request for another process
    than [pid]. *)
Definition addressed_to (pid : Z) (e : event) : bool :=
  match e with
  | EvPtrace _ p => p =? pid
  | _ => true
  end.

(** A caller's first step: spawn the target, then ask for the first
    address with the identifier [asmcovtrace_open] returned. *)
Definition open_then_next (path : string) (argv : list string) : M Z :=
  pid <- asmcovtrace_open path argv ;;
  asmcovtrace_next pid.

(** A child killed by signal 9 before the tracer's wait: the status word
    of a signal death is the signal number, and the process is gone when
    its registers are asked for. *)
Definition killed_world : world :=
  answered (failure ESRCH) (failure ESRCH) 9.

(** ** The session after an exit, and the caller after a failed exec *)

(** [<asm-generic/errno-base.h>] *)
Definition ECHILD : Z := 10.

Definition is_singlestep (e : event) : bool :=
  match e with
  | EvPtrace PTRACE_SINGLESTEP _ => true
  | _ => false
  end.

(** The kernel's side of an exit: once a wait has handed back a status
    word that reads as an exit, the traced process [pid] is gone, and
    every later register read for it fails with [ESRCH]. *)
Definition gone_after_exit (k : kernel) (pid : Z) : Prop :=
  forall (h later : list event) (st : reply Z),
    k_wait k h = Some st ->
    WIFEXITED (value st) = true ->
    fails_with (k_ptrace k (h ++ EvWait :: later) PTRACE_GETREGS pid) ESRCH.

(** [w2] is a later world of the session that was in [w] when a wait was
    issued: the same kernel, and a log that continues the log of [w]
    after that wait. *)
Definition later_in_session (w w2 : world) : Prop :=
  os w2 = os w /\ exists later : list event, log w2 = log w ++ EvWait :: later.

(** A kernel whose only child has exited with status [c]: the first wait
    reaps it; every later wait fails with [ECHILD] and leaves [status]
    unwritten, holding [junk]; every request for the child fails with
    [ESRCH]. *)
Definition reaped_kernel (c junk : Z) : kernel :=
  {| k_fork := fun _ => ok 0;
     k_ptrace := fun _ request _ =>
       match request with
       | PTRACE_TRACEME => ok (0, regs_at 0)
       | _ => failure ESRCH
       end;
     k_execve := fun _ _ _ => None;
     k_wait := fun h =>
       if existsb is_wait h then Some (mk_reply junk (Some ECHILD))
       else Some (ok (W_EXITCODE c 0)) |}.

Definition reaped_world (c junk : Z) : world := boot (reaped_kernel c junk).

(** The world [w] with a kernel that answers every [execve] with [x]. *)
Definition with_execve (x : option (reply Z)) (w : world) : world :=
  {| errno := errno w; log := log w;
     os := {| k_fork := k_fork (os w);
              k_ptrace := k_ptrace (os w);
              k_execve := fun _ _ _ => x;
              k_wait := k_wait (os w) |} |}.

(** The caller of [asmcovtrace_open] when the target cannot be executed:
    [fork] answers the child's identifier 803, every [execve] fails with
    [ENOENT], and the wait then reports the child's [exit(1)]. *)
Definition caller_noexec_world : world :=
  boot (fixed_kernel (ok 803) (ok (0, regs_at 0))
          (failure ESRCH) (failure ESRCH)
          (Some (mk_reply (-1) (Some ENOENT)))
          (Some (ok (W_EXITCODE 1 0)))).

(** ** Facts about the platform macros *)

Section WaitStatus.

Lemma WEXITSTATUS_mod (status : Z) :
  WEXITSTATUS status = Z.shiftr status 8 mod 2 ^ 8.
Proof.
  unfold WEXITSTATUS.
  rewrite Z.shiftr_land.
  change (Z.shiftr 0xff00 8) with (Z.ones 8).
  apply Z.land_ones. lia.
Qed.

Lemma WEXITSTATUS_range (status : Z) : 0 <= WEXITSTATUS status <= 255.
Proof.
  rewrite WEXITSTATUS_mod.
  pose proof (Z.mod_pos_bound (Z.shiftr status 8) (2 ^ 8)) as B.
  change (2 ^ 8) with 256 in *. lia.
Qed.

(** The conversion to [unsigned long long] leaves an exit status as it
    is. *)
Lemma to_ull_WEXITSTATUS (status : Z) :
  to_ull (WEXITSTATUS status) = WEXITSTATUS status.
Proof.
  unfold to_ull, ULLONG_WIDTH.
  pose proof (WEXITSTATUS_range status) as B.
  apply Z.mod_small.
  assert (255 < 2 ^ 64) by reflexivity. lia.
Qed.

Lemma WTERMSIG_mod (status : Z) : WTERMSIG status = status mod 2 ^ 7.
Proof.
  unfold WTERMSIG. change 0x7f with (Z.ones 7). apply Z.land_ones. lia.
Qed.

(** The status word of [exit(c)] reads back as exited with status [c]. *)
Lemma WIFEXITED_W_EXITCODE (c : Z) : WIFEXITED (W_EXITCODE c 0) = true.
Proof.
  unfold WIFEXITED, W_EXITCODE.
  rewrite WTERMSIG_mod, Z.lor_0_r, Z.shiftl_mul_pow2 by lia.
  change (2 ^ 8) with (2 * 2 ^ 7).
  rewrite Z.mul_assoc, Z.mod_mul by (compute; discriminate).
  reflexivity.
Qed.

Lemma WEXITSTATUS_W_EXITCODE (c : Z) :
  0 <= c <= 255 -> WEXITSTATUS (W_EXITCODE c 0) = c.
Proof.
  intros Hc. rewrite WEXITSTATUS_mod. unfold W_EXITCODE.
  rewrite Z.lor_0_r, Z.shiftr_shiftl_l, Z.sub_diag, Z.shiftl_0_r by lia.
  apply Z.mod_small. change (2 ^ 8) with 256. lia.
Qed.

(** The status word of a stop never reads as an exit. *)
Lemma WIFEXITED_W_STOPCODE (sig : Z) : WIFEXITED (W_STOPCODE sig) = false.
Proof.
  unfold WIFEXITED, W_STOPCODE, WTERMSIG.
  rewrite Z.land_lor_distr_l.
  change 0x7f with (Z.ones 7) at 1.
  rewrite Z.land_ones, Z.shiftl_mul_pow2 by lia.
  change (2 ^ 8) with (2 * 2 ^ 7).
  rewrite Z.mul_assoc, Z.mod_mul by (compute; discriminate).
  reflexivity.
Qed.

End WaitStatus.

(** ** The monad laws, at every world *)

Section MonadLaws.

Context {A B C : Type}.

Lemma M_bind_ret_l (a : A) (k : A -> M B) (w : world) :
  (x <- ret a ;; k x) w = k a w.
Proof. reflexivity. Qed.

Lemma M_bind_ret_r (m : M A) (w : world) :
  (x <- m ;; ret x) w = m w.
Proof.
  cbn. unfold M_bind. destruct (m w) as [[a | eval d | path argv | ] w'];
    reflexivity.
Qed.

Lemma M_bind_assoc (m : M A) (k : A -> M B) (h : B -> M C) (w : world) :
  (y <- (x <- m ;; k x) ;; h y) w = (x <- m ;; y <- k x ;; h y) w.
Proof.
  cbn. unfold M_bind. destruct (m w) as [[a | eval d | path argv | ] w'];
    reflexivity.
Qed.

(** [err] ends the run: nothing bound after it is executed. *)
Lemma M_bind_err (eval : Z) (fmt : string) (args : list err_arg)
    (k : A -> M B) (w : world) :
  (x <- err eval fmt args ;; k x) w = err eval fmt args w.
Proof. reflexivity. Qed.

End MonadLaws.

(** ** Running the two functions *)

Lemma skipn_own {A : Type} (l l' : list A) :
  skipn (List.length l) (l ++ l') = l'.
Proof. induction l as [|a l IH]; simpl; auto. Qed.

(** Bring a log built by successive [emit]s to the form [l ++ [e1; ...]]. *)
Ltac norm_log := repeat rewrite <- app_assoc; cbn [app].

(** [asmcovtrace_next], executed symbolically: one case per path through
    the function. *)
Lemma next_run (pid : Z) (w : world) :
  asmcovtrace_next pid w =
  match wait_answer w with
  | None => (Blocked, emit EvWait w)
  | Some st =>
      if WIFEXITED (value st) then
        (Returned (to_ull (WEXITSTATUS (value st))), after_wait st w)
      else if fst (value (getregs_answer pid w)) =? -1 then
        after_failure (after_getregs pid st w)
      else if fst (value (singlestep_answer pid w)) =? -1 then
        after_failure (after_singlestep pid st w)
      else
        (Returned (rip (snd (value (getregs_answer pid w)))),
         after_singlestep pid st w)
  end.
Proof.
  unfold asmcovtrace_next, wait_answer.
  cbn [bind ret Monad_M]. unfold M_bind at 1. unfold wait.
  destruct (k_wait (os w) (log w)) as [st|]; [|reflexivity].
  cbn beta iota. destruct (WIFEXITED (value st)); [reflexivity|].
  unfold after_singlestep, after_getregs, after_wait,
    getregs_answer, singlestep_answer, after_failure.
  unfold M_bind, M_ret, set_errno, ptrace, ptrace_regs, get_errno, err.
  cbn. norm_log.
  destruct (fst (value (k_ptrace _ (log w ++ [EvWait; EvErrnoStore 0]) _ _))
            =? -1).
  - cbn. norm_log. destruct (_ =? ESRCH); reflexivity.
  - cbn. norm_log.
    destruct (fst (value (k_ptrace _ _ PTRACE_SINGLESTEP _)) =? -1);
      cbn; norm_log; [destruct (_ =? ESRCH)|]; reflexivity.
Qed.

(** [asmcovtrace_open], executed symbolically. *)
Lemma open_run (path : string) (argv : list string) (w : world) :
  asmcovtrace_open path argv w =
  let pid := value (fork_answer w) in
  if pid =? -1 then abort "fork" [] (after_fork w)
  else if pid =? 0 then
    if fst (value (traceme_answer w)) =? -1 then
      abort "ptrace" [] (after_traceme w)
    else
      match execve_answer path argv w with
      | None => (Replaced path argv, after_execve path argv w)
      | Some _ => abort "exec: %s" [ArgStr path] (after_execve path argv w)
      end
  else (Returned pid, after_fork w).
Proof.
  unfold asmcovtrace_open, abort, after_execve, after_traceme, after_fork,
    execve_answer, traceme_answer, fork_answer.
  cbn [bind ret Monad_M]. unfold M_bind at 1. unfold fork at 1.
  cbn zeta beta iota.
  destruct (value (k_fork (os w) (log w)) =? -1); [reflexivity|].
  destruct (value (k_fork (os w) (log w)) =? 0); [|reflexivity].
  unfold M_bind, M_ret, ptrace, ptrace_regs, execve, err.
  cbn. norm_log.
  destruct (fst (value (k_ptrace _ (log w ++ [EvFork]) _ _)) =? -1);
    [reflexivity|].
  cbn. norm_log.
  destruct (k_execve _ _ path argv); reflexivity.
Qed.

(** *** What the calls leave in the log and in [errno] *)

Lemma after_failure_world (w : world) : snd (after_failure w) = w.
Proof. unfold after_failure. destruct (errno w =? ESRCH); reflexivity. Qed.

Lemma log_after_wait (st : reply Z) (w : world) :
  log (after_wait st w) = log w ++ [EvWait].
Proof. reflexivity. Qed.

Lemma log_after_getregs (pid : Z) (st : reply Z) (w : world) :
  log (after_getregs pid st w) =
  log w ++ [EvWait; EvErrnoStore 0; EvPtrace PTRACE_GETREGS pid].
Proof. unfold after_getregs, after_wait. cbn. norm_log. reflexivity. Qed.

Lemma log_after_singlestep (pid : Z) (st : reply Z) (w : world) :
  log (after_singlestep pid st w) =
  log w ++ [EvWait; EvErrnoStore 0; EvPtrace PTRACE_GETREGS pid;
            EvPtrace PTRACE_SINGLESTEP pid].
Proof.
  unfold after_singlestep. cbn [store_errno emit log].
  rewrite log_after_getregs. norm_log. reflexivity.
Qed.

(** After a request that fails with [e], [errno] is [e]. *)
Lemma errno_after_getregs (pid : Z) (st : reply Z) (w : world) (e : Z) :
  sets_errno (getregs_answer pid w) = Some e ->
  errno (after_getregs pid st w) = e.
Proof. intros H. unfold after_getregs. cbn. rewrite H. reflexivity. Qed.

Lemma errno_after_singlestep (pid : Z) (st : reply Z) (w : world) (e : Z) :
  sets_errno (singlestep_answer pid w) = Some e ->
  errno (after_singlestep pid st w) = e.
Proof. intros H. unfold after_singlestep. cbn. rewrite H. reflexivity. Qed.

(** The calls [asmcovtrace_next] issues, on every path. *)
Lemma next_issued (pid : Z) (w : world) :
  issued (asmcovtrace_next pid) w =
  EvWait ::
  match wait_status w with
  | None => []
  | Some status =>
      if WIFEXITED status then []
      else
        EvErrnoStore 0 :: EvPtrace PTRACE_GETREGS pid ::
        (if fst (value (getregs_answer pid w)) =? -1 then []
         else [EvPtrace PTRACE_SINGLESTEP pid])
  end.
Proof.
  unfold issued, wait_status. rewrite next_run.
  destruct (wait_answer w) as [st|]; cbn [option_map].
  - destruct (WIFEXITED (value st)).
    + cbn [snd]. rewrite log_after_wait. apply skipn_own.
    + destruct (fst (value (getregs_answer pid w)) =? -1).
      * rewrite after_failure_world, log_after_getregs. apply skipn_own.
      * destruct (fst (value (singlestep_answer pid w)) =? -1);
          [rewrite after_failure_world|cbn [snd]];
          rewrite log_after_singlestep; apply skipn_own.
  - cbn. apply skipn_own.
Qed.

(** The calls [asmcovtrace_open] issues, on every path. *)
Lemma open_issued (path : string) (argv : list string) (w : world) :
  issued (asmcovtrace_open path argv) w =
  EvFork ::
  (if value (fork_answer w) =? 0 then
     EvPtrace PTRACE_TRACEME 0 ::
     (if fst (value (traceme_answer w)) =? -1 then []
      else [EvExecve path argv])
   else []).
Proof.
  unfold issued. rewrite open_run. cbn zeta.
  destruct (value (fork_answer w) =? -1) eqn:E1.
  - apply Z.eqb_eq in E1. rewrite E1. cbn. apply skipn_own.
  - destruct (value (fork_answer w) =? 0); [|cbn; apply skipn_own].
    destruct (fst (value (traceme_answer w)) =? -1).
    + cbn. norm_log. apply skipn_own.
    + assert (L : log (after_execve path argv w) =
                  log w ++ [EvFork; EvPtrace PTRACE_TRACEME 0;
                            EvExecve path argv]).
      { unfold after_execve. destruct (execve_answer path argv w);
          cbn; norm_log; reflexivity. }
      destruct (execve_answer path argv w); cbn [snd abort];
        rewrite L; apply skipn_own.
Qed.

Lemma stopped_inv (w : world) :
  stopped w ->
  exists st, wait_answer w = Some st /\ WIFEXITED (value st) = false.
Proof.
  intros [status [H1 H2]]. unfold wait_status in H1.
  destruct (wait_answer w) as [st|]; [|discriminate].
  exists st. split; [reflexivity|]. cbn in H1. congruence.
Qed.

Lemma succeeds_eqb {A : Type} (r : reply (Z * A)) :
  succeeds r -> (fst (value r) =? -1) = false.
Proof. unfold succeeds. apply Z.eqb_neq. Qed.

Lemma fails_eqb {A : Type} (r : reply (Z * A)) (e : Z) :
  fails_with r e -> (fst (value r) =? -1) = true.
Proof. intros [H _]. rewrite H. reflexivity. Qed.

(** A request that fails with [e] leaves the function at its failure
    handling with [errno = e]. *)
Lemma next_run_failure (pid : Z) (w : world) (e : Z) :
  request_fails pid w e ->
  exists w', asmcovtrace_next pid w = after_failure w' /\ errno w' = e.
Proof.
  intros [Hs Hf]. apply stopped_inv in Hs as [st [Hw Hx]].
  rewrite next_run, Hw, Hx.
  destruct Hf as [Hg | [Hg Hstep]].
  - rewrite (fails_eqb _ _ Hg). eexists. split; [reflexivity|].
    apply errno_after_getregs, Hg.
  - rewrite (succeeds_eqb _ Hg), (fails_eqb _ _ Hstep).
    eexists. split; [reflexivity|]. apply errno_after_singlestep, Hstep.
Qed.

Lemma next_run_vanished (pid : Z) (w : world) :
  request_fails pid w ESRCH ->
  outcome_of (asmcovtrace_next pid) w = Returned 0.
Proof.
  intros H. destruct (next_run_failure pid w ESRCH H) as (w' & Hrun & He).
  unfold outcome_of. rewrite Hrun. unfold after_failure.
  rewrite He. reflexivity.
Qed.

Lemma next_run_stopped_at (pid : Z) (w : world) (ip : Z) :
  stopped_at pid w ip -> outcome_of (asmcovtrace_next pid) w = Returned ip.
Proof.
  intros (Hs & Hg & Hip & Hstep). apply stopped_inv in Hs as [st [Hw Hx]].
  unfold outcome_of.
  rewrite next_run, Hw, Hx, (succeeds_eqb _ Hg), (succeeds_eqb _ Hstep).
  cbn [fst]. congruence.
Qed.

Lemma next_run_exited (pid : Z) (w : world) (c : Z) :
  exited_with w c -> outcome_of (asmcovtrace_next pid) w = Returned c.
Proof.
  intros (status & Hw & Hx & Hc). unfold wait_status in Hw.
  unfold outcome_of. rewrite next_run.
  destruct (wait_answer w) as [st|]; [|discriminate].
  cbn in Hw. injection Hw as Hw. rewrite Hw, Hx. cbn [fst].
  rewrite to_ull_WEXITSTATUS. congruence.
Qed.

Lemma next_exit_status_aux (pid : Z) (w : world) (c : Z) :
  exited_with w c ->
  outcome_of (asmcovtrace_next pid) w = Returned c /\
  issued (asmcovtrace_next pid) w = [EvWait].
Proof.
  intros H. split; [apply next_run_exited, H|].
  destruct H as (status & Hw & Hx & _).
  rewrite next_issued, Hw, Hx. reflexivity.
Qed.

(** ** The step driver: [asmcovtrace_next] *)

(** C1.  On a tracee that is stopped (the wait reports no exit) and whose
    two requests succeed, [asmcovtrace_next] issues, in this order, the
    wait, the register read and exactly one single-step request, and
    returns the instruction pointer the register read found: the address
    read before the step was requested, that of the instruction about to
    run. *)
Theorem next_reports_before_step (pid : Z) (w : world) (ip : Z) :
  stopped_at pid w ip ->
  outcome_of (asmcovtrace_next pid) w = Returned ip /\
  issued (asmcovtrace_next pid) w =
    [EvWait; EvErrnoStore 0; EvPtrace PTRACE_GETREGS pid;
     EvPtrace PTRACE_SINGLESTEP pid].
Proof.
  intros H. split; [apply next_run_stopped_at, H|].
  destruct H as (Hs & Hg & _ & _).
  destruct Hs as (status & Hw & Hx).
  rewrite next_issued, Hw, Hx, (succeeds_eqb _ Hg). reflexivity.
Qed.

(** C3.  When the register read or the single-step request fails with
    [ESRCH], [asmcovtrace_next] does not abort: it returns 0, which is
    also what it returns for a tracee stopped at address 0. *)
Theorem next_vanished_returns_zero (pid : Z) (w : world) :
  request_fails pid w ESRCH ->
  outcome_of (asmcovtrace_next pid) w = Returned 0 /\
  forall w0 : world,
    stopped_at pid w0 0 ->
    outcome_of (asmcovtrace_next pid) w0 =
    outcome_of (asmcovtrace_next pid) w.
Proof.
  intros H.
  pose proof (next_run_vanished pid w H) as R.
  split; [exact R|].
  intros w0 H0. rewrite R. apply next_run_stopped_at, H0.
Qed.

(** C4.  When the register read or the single-step request fails with an
    [errno] other than [ESRCH], [asmcovtrace_next] does not return: it
    calls [err] with exit status 1 (not 0) and the message "ptrace: %d"
    filled with that [errno]. *)
Theorem next_fatal_on_other_errors (pid : Z) (w : world) (e : Z) :
  request_fails pid w e ->
  e <> ESRCH ->
  outcome_of (asmcovtrace_next pid) w =
    Aborted 1 {| d_fmt := "ptrace: %d"; d_args := [ArgInt e];
                 d_errno := e |} /\
  forall r : Z, outcome_of (asmcovtrace_next pid) w <> Returned r.
Proof.
  intros H Hne.
  assert (R : outcome_of (asmcovtrace_next pid) w =
              Aborted 1 {| d_fmt := "ptrace: %d"; d_args := [ArgInt e];
                           d_errno := e |}).
  { destruct (next_run_failure pid w e H) as (w' & Hrun & He).
    unfold outcome_of. rewrite Hrun. unfold after_failure.
    apply Z.eqb_neq in Hne. rewrite He, Hne. reflexivity. }
  split; [exact R|].
  intros r. rewrite R. discriminate.
Qed.

(** *** The three returning outcomes, on concrete kernels *)

Lemma exit_world_exited (c : Z) :
  0 <= c <= 255 -> exited_with (exit_world c) c.
Proof.
  intros Hc. exists (W_EXITCODE c 0). split; [reflexivity|].
  split; [apply WIFEXITED_W_EXITCODE | apply WEXITSTATUS_W_EXITCODE, Hc].
Qed.

Lemma stop_world_stopped (pid ip : Z) : stopped_at pid (stop_world ip) ip.
Proof.
  split.
  - exists (W_STOPCODE SIGTRAP). split; reflexivity.
  - repeat split; unfold succeeds; cbn; discriminate.
Qed.

Lemma race_world_vanished (pid : Z) : request_fails pid race_world ESRCH.
Proof.
  split.
  - exists (W_STOPCODE SIGTRAP). split; reflexivity.
  - left. split; reflexivity.
Qed.

(** C7.  Every call of [asmcovtrace_next] issues exactly one wait, as its
    first call, whatever the kernel answers; when that wait reports an
    exit, the function returns at once, the wait being all it issued. *)
Theorem next_waits_exactly_once (pid : Z) (w : world) :
  hd_error (issued (asmcovtrace_next pid) w) = Some EvWait /\
  List.length (filter is_wait (issued (asmcovtrace_next pid) w)) = 1%nat /\
  forall c : Z,
    exited_with w c ->
    outcome_of (asmcovtrace_next pid) w = Returned c /\
    issued (asmcovtrace_next pid) w = [EvWait].
Proof.
  split; [rewrite next_issued; reflexivity|]. split.
  - rewrite next_issued.
    destruct (wait_status w) as [status|]; [|reflexivity].
    destruct (WIFEXITED status); [reflexivity|].
    destruct (fst (value (getregs_answer pid w)) =? -1); reflexivity.
  - intros c H. destruct (next_exit_status_aux pid w c H) as [R I].
    split; assumption.
Qed.

(** C8.  The one integer [asmcovtrace_next] returns stands for all three
    outcomes.  An exit with status [c] returns [c], within 0..255, and so
    does a stop at address [c]; an exit with status 0, a request that
    failed with [ESRCH] and a stop at address 0 all return 0.  Each of
    these situations occurs, so no function of the returned value tells
    an exit from a stop. *)
Theorem next_result_is_ambiguous (pid : Z) :
  (forall (c : Z) (w_exit w_stop : world),
      exited_with w_exit c ->
      stopped_at pid w_stop c ->
      0 <= c <= 255 /\
      outcome_of (asmcovtrace_next pid) w_exit = Returned c /\
      outcome_of (asmcovtrace_next pid) w_stop = Returned c) /\
  (forall w_exit w_race w_stop : world,
      exited_with w_exit 0 ->
      request_fails pid w_race ESRCH ->
      stopped_at pid w_stop 0 ->
      outcome_of (asmcovtrace_next pid) w_exit = Returned 0 /\
      outcome_of (asmcovtrace_next pid) w_race = Returned 0 /\
      outcome_of (asmcovtrace_next pid) w_stop = Returned 0) /\
  (forall c : Z,
      0 <= c <= 255 ->
      exists w_exit w_stop : world,
        exited_with w_exit c /\ stopped_at pid w_stop c) /\
  ~ (exists is_exit : Z -> bool,
        forall (w : world) (r : Z),
          outcome_of (asmcovtrace_next pid) w = Returned r ->
          (forall c, exited_with w c -> is_exit r = true) /\
          (forall ip, stopped_at pid w ip -> is_exit r = false)).
Proof.
  split; [|split; [|split]].
  - intros c w_exit w_stop He Hs. split.
    + destruct He as (status & _ & _ & Hc). rewrite <- Hc.
      apply WEXITSTATUS_range.
    + split; [apply next_run_exited, He | apply next_run_stopped_at, Hs].
  - intros w_exit w_race w_stop He Hr Hs.
    split; [apply next_run_exited, He|].
    split; [apply next_run_vanished, Hr | apply next_run_stopped_at, Hs].
  - intros c Hc. exists (exit_world c), (stop_world c).
    split; [apply exit_world_exited, Hc | apply stop_world_stopped].
  - intros [is_exit H].
    assert (He : exited_with (exit_world 0) 0)
      by (apply exit_world_exited; lia).
    pose proof (stop_world_stopped pid 0) as Hs.
    destruct (H _ 0 (next_run_exited pid _ 0 He)) as [T _].
    destruct (H _ 0 (next_run_stopped_at pid _ 0 Hs)) as [_ F].
    specialize (T 0 He). specialize (F 0 Hs). congruence.
Qed.

(** [errno] at entry has no part in how [asmcovtrace_next] ends: it is
    overwritten before it is read. *)
Lemma next_ignores_entry_errno (pid : Z) (w : world) (e0 : Z) :
  outcome_of (asmcovtrace_next pid) (with_errno e0 w) =
  outcome_of (asmcovtrace_next pid) w.
Proof.
  unfold outcome_of. rewrite !next_run.
  change (wait_answer (with_errno e0 w)) with (wait_answer w).
  change (getregs_answer pid (with_errno e0 w)) with (getregs_answer pid w).
  change (singlestep_answer pid (with_errno e0 w))
    with (singlestep_answer pid w).
  destruct (wait_answer w) as [st|]; [|reflexivity].
  destruct (WIFEXITED (value st)); [reflexivity|].
  assert (G : errno (after_getregs pid st (with_errno e0 w)) =
              errno (after_getregs pid st w)) by reflexivity.
  assert (S : errno (after_singlestep pid st (with_errno e0 w)) =
              errno (after_singlestep pid st w)) by reflexivity.
  unfold after_failure. rewrite G, S.
  destruct (fst (value (getregs_answer pid w)) =? -1).
  - destruct (_ =? ESRCH); reflexivity.
  - destruct (fst (value (singlestep_answer pid w)) =? -1);
      [destruct (_ =? ESRCH)|]; reflexivity.
Qed.

(** C9.  On a stopped tracee [asmcovtrace_next] stores 0 in [errno] after
    the wait and before the register read, so that the [errno] it entered
    with has no part in the result; it issues the single-step request
    exactly when the register read did not return -1; and when either
    request fails with [ESRCH] it returns 0, also when the register read
    had succeeded and found the instruction pointer at [ip]. *)
Theorem next_errno_reset_and_short_circuit (pid : Z) (w : world) :
  stopped w ->
  issued (asmcovtrace_next pid) w =
    [EvWait; EvErrnoStore 0; EvPtrace PTRACE_GETREGS pid] ++
    (if fst (value (getregs_answer pid w)) =? -1 then []
     else [EvPtrace PTRACE_SINGLESTEP pid]) /\
  (forall e0 : Z,
      outcome_of (asmcovtrace_next pid) (with_errno e0 w) =
      outcome_of (asmcovtrace_next pid) w) /\
  (request_fails pid w ESRCH ->
   outcome_of (asmcovtrace_next pid) w = Returned 0) /\
  (forall ip : Z,
      succeeds (getregs_answer pid w) ->
      rip (snd (value (getregs_answer pid w))) = ip ->
      fails_with (singlestep_answer pid w) ESRCH ->
      outcome_of (asmcovtrace_next pid) w = Returned 0).
Proof.
  intros Hs.
  split; [|split; [|split]].
  - destruct Hs as (status & Hw & Hx).
    rewrite next_issued, Hw, Hx. reflexivity.
  - intros e0. apply next_ignores_entry_errno.
  - apply next_run_vanished.
  - intros ip Hg _ Hstep. apply next_run_vanished.
    split; [exact Hs|]. right. auto.
Qed.

(** ** The trace session: [asmcovtrace_open] *)

Lemma open_run_fork_failed (path : string) (argv : list string) (w : world) :
  value (fork_answer w) = -1 ->
  asmcovtrace_open path argv w = abort "fork" [] (after_fork w).
Proof. intros H. rewrite open_run. cbn zeta. rewrite H. reflexivity. Qed.

Lemma open_run_child (path : string) (argv : list string) (w : world) :
  value (fork_answer w) = 0 ->
  asmcovtrace_open path argv w =
  if fst (value (traceme_answer w)) =? -1 then
    abort "ptrace" [] (after_traceme w)
  else
    match execve_answer path argv w with
    | None => (Replaced path argv, after_execve path argv w)
    | Some _ => abort "exec: %s" [ArgStr path] (after_execve path argv w)
    end.
Proof. intros H. rewrite open_run. cbn zeta. rewrite H. reflexivity. Qed.

Lemma open_run_parent (path : string) (argv : list string) (w : world) :
  value (fork_answer w) <> -1 ->
  value (fork_answer w) <> 0 ->
  asmcovtrace_open path argv w = (Returned (value (fork_answer w)), after_fork w).
Proof.
  intros H1 H0. rewrite open_run. cbn zeta.
  apply Z.eqb_neq in H1, H0. rewrite H1, H0. reflexivity.
Qed.

(** C5, as the code has it.  [asmcovtrace_open] ends in [err] with exit
    status 1 in the process where the setup call fails: in the caller
    when [fork] fails (message "fork"), and in the forked child when
    [execve] returns (message "exec: %s" with the path); the message
    carries the [errno] of the failed call, which was issued once with
    nothing after it.  In the caller a call whose [fork] succeeded
    returns the child's identifier, having issued the [fork] alone,
    whatever the kernel answers to [execve]. *)
Theorem open_setup_failure_is_fatal
    (path : string) (argv : list string) (w : world) (e : Z) :
  (value (fork_answer w) = -1 ->
   sets_errno (fork_answer w) = Some e ->
   outcome_of (asmcovtrace_open path argv) w =
     Aborted 1 {| d_fmt := "fork"; d_args := []; d_errno := e |} /\
   issued (asmcovtrace_open path argv) w = [EvFork]) /\
  (forall r : reply Z,
      value (fork_answer w) = 0 ->
      succeeds (traceme_answer w) ->
      execve_answer path argv w = Some r ->
      sets_errno r = Some e ->
      outcome_of (asmcovtrace_open path argv) w =
        Aborted 1 {| d_fmt := "exec: %s"; d_args := [ArgStr path];
                     d_errno := e |} /\
      issued (asmcovtrace_open path argv) w =
        [EvFork; EvPtrace PTRACE_TRACEME 0; EvExecve path argv]) /\
  (forall x : option (reply Z),
      value (fork_answer w) <> -1 ->
      value (fork_answer w) <> 0 ->
      outcome_of (asmcovtrace_open path argv) (with_execve x w) =
        Returned (value (fork_answer w)) /\
      issued (asmcovtrace_open path argv) (with_execve x w) = [EvFork]).
Proof.
  split; [|split].
  - intros Hf He. split.
    + unfold outcome_of. rewrite (open_run_fork_failed _ _ _ Hf).
      unfold abort, after_fork. cbn. rewrite He. reflexivity.
    + rewrite open_issued, Hf. reflexivity.
  - intros r Hf Ht Hx He. split.
    + unfold outcome_of.
      rewrite (open_run_child _ _ _ Hf), (succeeds_eqb _ Ht).
      unfold after_execve, abort. rewrite Hx. cbn. rewrite He. reflexivity.
    + rewrite open_issued, Hf, (succeeds_eqb _ Ht). reflexivity.
  - intros x H1 H0.
    assert (F : fork_answer (with_execve x w) = fork_answer w)
      by reflexivity.
    split.
    + unfold outcome_of. rewrite open_run_parent by (rewrite F; assumption).
      rewrite F. reflexivity.
    + rewrite open_issued, F. apply Z.eqb_neq in H0. rewrite H0.
      reflexivity.
Qed.

(** The claim as the design document words it, that a failed [execve]
    aborts the invocation, fails in the caller: with a kernel that
    answers every [execve] of the target with [ENOENT], the call returns
    the child's identifier 803 and does not end in [err]; it is the
    child's copy of the call that does.  The failure reaches the caller
    as the value 1 of the next [asmcovtrace_next], the child's exit
    status. *)
Lemma open_exec_failure_returns_in_caller :
  (forall h : list event,
      k_execve (os caller_noexec_world) h "/no/such" ["such"] =
      Some (mk_reply (-1) (Some ENOENT))) /\
  outcome_of (asmcovtrace_open "/no/such" ["such"]) caller_noexec_world =
    Returned 803 /\
  ~ (exists (eval : Z) (d : diagnostic),
        outcome_of (asmcovtrace_open "/no/such" ["such"])
          caller_noexec_world = Aborted eval d) /\
  outcome_of (open_then_next "/no/such" ["such"]) caller_noexec_world =
    Returned 1.
Proof.
  split; [reflexivity|].
  assert (R : outcome_of (asmcovtrace_open "/no/such" ["such"])
                caller_noexec_world = Returned 803)
    by (vm_compute; reflexivity).
  split; [exact R|]. split.
  - intros (eval & d & H). rewrite R in H. discriminate.
  - vm_compute. reflexivity.
Qed.

(** C6.  In the child ([fork] returned 0) [asmcovtrace_open] issues
    [PTRACE_TRACEME] right after the [fork] and before the [execve] of
    the target, which it issues only if the request did not return -1;
    when the request fails the child ends in [err] with status 1 and no
    [execve] was issued.  When the request succeeds the call ends in the
    [execve]: the image is replaced, or [err] reports the failure. *)
Theorem open_child_traces_itself_first
    (path : string) (argv : list string) (w : world) :
  value (fork_answer w) = 0 ->
  issued (asmcovtrace_open path argv) w =
    EvFork :: EvPtrace PTRACE_TRACEME 0 ::
    (if fst (value (traceme_answer w)) =? -1 then []
     else [EvExecve path argv]) /\
  (forall e : Z,
      fails_with (traceme_answer w) e ->
      outcome_of (asmcovtrace_open path argv) w =
        Aborted 1 {| d_fmt := "ptrace"; d_args := []; d_errno := e |} /\
      filter is_execve (issued (asmcovtrace_open path argv) w) = []) /\
  (succeeds (traceme_answer w) ->
   issued (asmcovtrace_open path argv) w =
     [EvFork; EvPtrace PTRACE_TRACEME 0; EvExecve path argv] /\
   (execve_answer path argv w = None ->
    outcome_of (asmcovtrace_open path argv) w = Replaced path argv)).
Proof.
  intros Hf.
  assert (I : issued (asmcovtrace_open path argv) w =
              EvFork :: EvPtrace PTRACE_TRACEME 0 ::
              (if fst (value (traceme_answer w)) =? -1 then []
               else [EvExecve path argv]))
    by (rewrite open_issued, Hf; reflexivity).
  split; [exact I|]. split.
  - intros e Ht. rewrite I, (fails_eqb _ _ Ht). split; [|reflexivity].
    unfold outcome_of. rewrite (open_run_child _ _ _ Hf), (fails_eqb _ _ Ht).
    destruct Ht as [_ Ht]. unfold abort, after_traceme. cbn.
    rewrite Ht. reflexivity.
  - intros Ht. rewrite I, (succeeds_eqb _ Ht). split; [reflexivity|].
    intros Hx. unfold outcome_of.
    rewrite (open_run_child _ _ _ Hf), (succeeds_eqb _ Ht), Hx. reflexivity.
Qed.

(** C10.  With [fork] answering as it is specified to (-1, 0 or a
    positive process identifier), a call of [asmcovtrace_open] that
    returns, returns that identifier, which is positive, and has issued
    the [fork] and nothing else; the parent does return; where [fork]
    answered -1 or 0 the call does not return. *)
Theorem open_returns_child_pid
    (path : string) (argv : list string) (w : world) :
  -1 <= value (fork_answer w) ->
  (forall r : Z,
      outcome_of (asmcovtrace_open path argv) w = Returned r ->
      r = value (fork_answer w) /\ 0 < r /\
      issued (asmcovtrace_open path argv) w = [EvFork]) /\
  (0 < value (fork_answer w) ->
   outcome_of (asmcovtrace_open path argv) w =
     Returned (value (fork_answer w))) /\
  (value (fork_answer w) = -1 \/ value (fork_answer w) = 0 ->
   forall r : Z, outcome_of (asmcovtrace_open path argv) w <> Returned r).
Proof.
  intros Hc.
  assert (N : value (fork_answer w) = -1 \/ value (fork_answer w) = 0 ->
              forall r : Z,
                outcome_of (asmcovtrace_open path argv) w <> Returned r).
  { intros [Hf | Hf] r; unfold outcome_of.
    - rewrite (open_run_fork_failed _ _ _ Hf). discriminate.
    - rewrite (open_run_child _ _ _ Hf).
      destruct (fst (value (traceme_answer w)) =? -1); [discriminate|].
      destruct (execve_answer path argv w); discriminate. }
  assert (P : 0 < value (fork_answer w) ->
              outcome_of (asmcovtrace_open path argv) w =
              Returned (value (fork_answer w))).
  { intros Hp. unfold outcome_of. rewrite open_run_parent by lia.
    reflexivity. }
  split; [|split; assumption].
  intros r Hr.
  destruct (Z.eq_dec (value (fork_answer w)) (-1)) as [E1 | E1];
    [exfalso; apply (N (or_introl E1) r Hr)|].
  destruct (Z.eq_dec (value (fork_answer w)) 0) as [E0 | E0];
    [exfalso; apply (N (or_intror E0) r Hr)|].
  rewrite P in Hr by lia. injection Hr as Hr. subst r.
  split; [reflexivity|]. split; [lia|].
  rewrite open_issued. apply Z.eqb_neq in E0. rewrite E0. reflexivity.
Qed.

(** ** The driver against a traced child *)

Lemma skipn_nth_cons {A : Type} (l : list A) (k : nat) (x : A) :
  nth_error l k = Some x -> skipn k l = x :: skipn (S k) l.
Proof.
  revert k. induction l as [|a l IH]; intros [|k] H; try discriminate.
  - injection H as ->. reflexivity.
  - cbn in H. rewrite skipn_cons at 1. rewrite (IH k H). reflexivity.
Qed.

Section Tracee.

Variable t : tracee.

Let pid : Z := t_pid t.

Lemma steps_of_app (p : Z) (l l' : list event) :
  steps_of p (l ++ l') = (steps_of p l + steps_of p l')%nat.
Proof.
  induction l as [|e l IH]; [reflexivity|].
  destruct e as [ | request q | | | ]; cbn [app steps_of]; auto.
  destruct request; auto.
  destruct (q =? p); rewrite IH; reflexivity.
Qed.

(** Neither the wait, the [errno] store nor the register read moves the
    tracee. *)
Lemma steps_before_getregs (l : list event) :
  steps_of pid (l ++ [EvWait; EvErrnoStore 0]) = steps_of pid l.
Proof. rewrite steps_of_app. cbn. apply Nat.add_0_r. Qed.

Lemma steps_before_singlestep (l : list event) :
  steps_of pid (l ++ [EvWait; EvErrnoStore 0; EvPtrace PTRACE_GETREGS pid])
  = steps_of pid l.
Proof. rewrite steps_of_app. cbn. apply Nat.add_0_r. Qed.

Lemma steps_after_singlestep (l : list event) :
  steps_of pid
    (l ++ [EvWait; EvErrnoStore 0; EvPtrace PTRACE_GETREGS pid;
           EvPtrace PTRACE_SINGLESTEP pid])
  = S (steps_of pid l).
Proof. rewrite steps_of_app. cbn. rewrite Z.eqb_refl. apply Nat.add_1_r. Qed.

(** While the child has an instruction left, a call returns its address
    and leaves the child one instruction further. *)
Lemma tracee_next_address (w : world) (ip : Z) :
  os w = tracee_kernel t ->
  nth_error (t_text t) (steps_of pid (log w)) = Some ip ->
  exists w' : world,
    asmcovtrace_next pid w = (Returned ip, w') /\
    os w' = tracee_kernel t /\
    steps_of pid (log w') = S (steps_of pid (log w)).
Proof.
  intros Hos Hnth.
  assert (Hw : wait_answer w = Some (ok (W_STOPCODE SIGTRAP))).
  { unfold wait_answer. rewrite Hos. cbn. fold pid. rewrite Hnth.
    reflexivity. }
  assert (Hg : getregs_answer pid w = ok (0, regs_at ip)).
  { unfold getregs_answer. rewrite Hos. cbn. fold pid.
    rewrite steps_before_getregs, Hnth, Z.eqb_refl. reflexivity. }
  assert (Hs : singlestep_answer pid w = ok (0, regs_at 0)).
  { unfold singlestep_answer. rewrite Hos. cbn. fold pid.
    rewrite steps_before_singlestep, Hnth, Z.eqb_refl. reflexivity. }
  exists (after_singlestep pid (ok (W_STOPCODE SIGTRAP)) w).
  split; [|split].
  - rewrite next_run, Hw. cbn [value ok].
    rewrite WIFEXITED_W_STOPCODE, Hg, Hs. reflexivity.
  - exact Hos.
  - rewrite log_after_singlestep. apply steps_after_singlestep.
Qed.

(** Once the child has run all its instructions, a call returns its exit
    status. *)
Lemma tracee_next_exit (w : world) :
  os w = tracee_kernel t ->
  0 <= t_exit t <= 255 ->
  nth_error (t_text t) (steps_of pid (log w)) = None ->
  outcome_of (asmcovtrace_next pid) w = Returned (t_exit t).
Proof.
  intros Hos Hc Hnth. apply next_run_exited.
  exists (W_EXITCODE (t_exit t) 0). split.
  - unfold wait_status, wait_answer. rewrite Hos. cbn. fold pid.
    rewrite Hnth. reflexivity.
  - split; [apply WIFEXITED_W_EXITCODE | apply WEXITSTATUS_W_EXITCODE, Hc].
Qed.

(** Successive calls return the addresses of the child's instructions in
    the order it executes them, each before it runs, then the exit
    status. *)
Lemma next_n_follows_tracee (m : nat) :
  0 <= t_exit t <= 255 ->
  forall w : world,
    os w = tracee_kernel t ->
    (m + steps_of pid (log w))%nat = List.length (t_text t) ->
    fst (next_n (S m) pid w) =
    skipn (steps_of pid (log w)) (t_text t) ++ [t_exit t].
Proof.
  intros Hc. induction m as [|m IH]; intros w Hos Hlen.
  - cbn in Hlen. rewrite Hlen, skipn_all.
    assert (Hnth : nth_error (t_text t) (steps_of pid (log w)) = None)
      by (apply nth_error_None; rewrite Hlen; apply Nat.le_refl).
    pose proof (tracee_next_exit w Hos Hc Hnth) as R.
    unfold outcome_of in R. cbn [next_n].
    destruct (asmcovtrace_next pid w) as [o w']. cbn in R. subst o.
    reflexivity.
  - destruct (nth_error (t_text t) (steps_of pid (log w))) as [ip|] eqn:Hnth.
    2:{ apply nth_error_None in Hnth. lia. }
    destruct (tracee_next_address w ip Hos Hnth) as (w' & Hrun & Hos' & Hst).
    change (next_n (S (S m)) pid w)
      with (match asmcovtrace_next pid w with
            | (Returned a, w1) =>
                let (l, w2) := next_n (S m) pid w1 in (a :: l, w2)
            | (_, w1) => ([], w1)
            end).
    rewrite Hrun.
    specialize (IH w' Hos'). rewrite Hst in IH.
    assert (Hlen' : (m + S (steps_of pid (log w)))%nat =
                    List.length (t_text t)) by lia.
    specialize (IH Hlen').
    destruct (next_n (S m) pid w') as [l w2]. cbn [fst] in *. subst l.
    rewrite (skipn_nth_cons _ _ _ Hnth). reflexivity.
Qed.

(** X12.  Against a kernel that scripts a traced child running the
    instructions at [t_text t] and then exiting with status [t_exit t],
    successive calls of [asmcovtrace_next], one more than there are
    instructions, return the address of each instruction in execution
    order, each before it runs, and then the exit status. *)
Lemma next_n_traces_tracee :
  0 <= t_exit t <= 255 ->
  fst (next_n (S (List.length (t_text t))) pid (boot (tracee_kernel t))) =
  t_text t ++ [t_exit t].
Proof.
  intros Hc.
  apply (next_n_follows_tracee (List.length (t_text t)) Hc
           (boot (tracee_kernel t)) eq_refl).
  cbn. apply Nat.add_0_r.
Qed.

(** Once the child has run all its instructions it can be stepped no
    further: whatever the tracer does next, a register read or a step
    request for it is answered [ESRCH]. *)
Lemma tracee_exit_is_final (w : world) (later : list event) :
  os w = tracee_kernel t ->
  nth_error (t_text t) (steps_of pid (log w)) = None ->
  k_ptrace (os w) (log w ++ later) PTRACE_GETREGS pid = failure ESRCH /\
  k_ptrace (os w) (log w ++ later) PTRACE_SINGLESTEP pid = failure ESRCH.
Proof.
  intros Hos Hnth. rewrite Hos. cbn. fold pid.
  assert (N : nth_error (t_text t) (steps_of pid (log w ++ later)) = None).
  { apply nth_error_None. apply nth_error_None in Hnth.
    rewrite steps_of_app. lia. }
  rewrite N. split; reflexivity.
Qed.

End Tracee.

(** The design document's scenarios A and B: the calls return the
    addresses in execution order, then the exit status. *)
Example scenario_A_trace :
  fst (next_n 2 4711 (boot (tracee_kernel scenario_A))) = [0x1000; 0].
Proof. vm_compute. reflexivity. Qed.

Example scenario_B_trace :
  fst (next_n 16 4711 (boot (tracee_kernel scenario_B))) =
  [0x2000; 0x2004; 0x2008; 0x2000; 0x2004; 0x2008; 0x2000; 0x2004; 0x2008;
   0x2000; 0x2004; 0x2008; 0x2000; 0x2004; 0x2008; 0].
Proof. apply (next_n_follows_tracee scenario_B 15); [cbn; lia|reflexivity..]. Qed.

(** ** The theorems at concrete inputs *)

Lemma next_reports_before_step_witness :
  stopped_at 4711 (stop_world 0x1000) 0x1000 /\
  outcome_of (asmcovtrace_next 4711) (stop_world 0x1000) = Returned 0x1000 /\
  issued (asmcovtrace_next 4711) (stop_world 0x1000) =
    [EvWait; EvErrnoStore 0; EvPtrace PTRACE_GETREGS 4711;
     EvPtrace PTRACE_SINGLESTEP 4711].
Proof.
  assert (H : stopped_at 4711 (stop_world 0x1000) 0x1000).
  { split; [exists (W_STOPCODE SIGTRAP); split; reflexivity|].
    split; [vm_compute; discriminate|].
    split; [reflexivity | vm_compute; discriminate]. }
  split; [exact H|].
  exact (next_reports_before_step 4711 (stop_world 0x1000) 0x1000 H).
Defined.

Lemma next_vanished_returns_zero_witness :
  request_fails 4711 race_world ESRCH /\
  outcome_of (asmcovtrace_next 4711) race_world = Returned 0.
Proof.
  assert (H : request_fails 4711 race_world ESRCH).
  { split; [exists (W_STOPCODE SIGTRAP); split; reflexivity|].
    left. split; reflexivity. }
  split; [exact H|].
  exact (proj1 (next_vanished_returns_zero 4711 race_world H)).
Defined.

Lemma next_fatal_on_other_errors_witness :
  request_fails 4711 refused_world EPERM /\
  EPERM <> ESRCH /\
  outcome_of (asmcovtrace_next 4711) refused_world =
    Aborted 1 {| d_fmt := "ptrace: %d"; d_args := [ArgInt EPERM];
                 d_errno := EPERM |}.
Proof.
  assert (H : request_fails 4711 refused_world EPERM).
  { split; [exists (W_STOPCODE SIGTRAP); split; reflexivity|].
    left. split; reflexivity. }
  assert (N : EPERM <> ESRCH) by (vm_compute; discriminate).
  split; [exact H|]. split; [exact N|].
  exact (proj1 (next_fatal_on_other_errors 4711 refused_world EPERM H N)).
Defined.

Lemma open_setup_failure_is_fatal_witness :
  outcome_of (asmcovtrace_open "/bin/true" ["true"]) fork_failed_world =
    Aborted 1 {| d_fmt := "fork"; d_args := []; d_errno := EAGAIN |} /\
  outcome_of (asmcovtrace_open "/no/such" ["such"]) child_noexec_world =
    Aborted 1 {| d_fmt := "exec: %s"; d_args := [ArgStr "/no/such"];
                 d_errno := ENOENT |} /\
  outcome_of (asmcovtrace_open "/no/such" ["such"])
    (with_execve (Some (mk_reply (-1) (Some ENOENT))) (parent_world 803)) =
    Returned 803.
Proof.
  split; [|split].
  - apply (proj1 (open_setup_failure_is_fatal
                    "/bin/true" ["true"] fork_failed_world EAGAIN));
      reflexivity.
  - apply (proj1 (proj2 (open_setup_failure_is_fatal
                    "/no/such" ["such"] child_noexec_world ENOENT))
             (mk_reply (-1) (Some ENOENT)));
      [reflexivity | vm_compute; discriminate | reflexivity | reflexivity].
  - apply (proj2 (proj2 (open_setup_failure_is_fatal
                    "/no/such" ["such"] (parent_world 803) ENOENT))
             (Some (mk_reply (-1) (Some ENOENT))));
      vm_compute; discriminate.
Defined.

Lemma open_child_traces_itself_first_witness :
  value (fork_answer child_world) = 0 /\
  issued (asmcovtrace_open "/bin/true" ["true"]) child_world =
    [EvFork; EvPtrace PTRACE_TRACEME 0; EvExecve "/bin/true" ["true"]] /\
  outcome_of (asmcovtrace_open "/bin/true" ["true"]) child_world =
    Replaced "/bin/true" ["true"] /\
  outcome_of (asmcovtrace_open "/bin/true" ["true"]) child_untraced_world =
    Aborted 1 {| d_fmt := "ptrace"; d_args := []; d_errno := EPERM |}.
Proof.
  assert (H : value (fork_answer child_world) = 0) by reflexivity.
  assert (T : succeeds (traceme_answer child_world))
    by (vm_compute; discriminate).
  destruct (open_child_traces_itself_first "/bin/true" ["true"]
              child_world H) as (_ & _ & S).
  destruct (S T) as [I R].
  split; [exact H|]. split; [exact I|]. split; [apply R; reflexivity|].
  refine (proj1 (proj1 (proj2 (open_child_traces_itself_first
            "/bin/true" ["true"] child_untraced_world _)) EPERM _)).
  - reflexivity.
  - split; reflexivity.
Defined.

Lemma next_waits_exactly_once_witness :
  List.length
    (filter is_wait (issued (asmcovtrace_next 4711) (stop_world 0x1000)))
  = 1%nat /\
  issued (asmcovtrace_next 4711) (exit_world 0) = [EvWait].
Proof.
  split.
  - exact (proj1 (proj2 (next_waits_exactly_once 4711 (stop_world 0x1000)))).
  - refine (proj2 (proj2 (proj2 (next_waits_exactly_once 4711 (exit_world 0)))
                     0 _)).
    exists (W_EXITCODE 0 0). split; [reflexivity|].
    split; vm_compute; reflexivity.
Defined.

Lemma next_result_is_ambiguous_witness :
  outcome_of (asmcovtrace_next 4711) (exit_world 7) = Returned 7 /\
  outcome_of (asmcovtrace_next 4711) (stop_world 7) = Returned 7.
Proof.
  refine (proj2 (proj1 (next_result_is_ambiguous 4711)
                   7 (exit_world 7) (stop_world 7) _ _)).
  - exists (W_EXITCODE 7 0). split; [reflexivity|].
    split; vm_compute; reflexivity.
  - split; [exists (W_STOPCODE SIGTRAP); split; reflexivity|].
    split; [vm_compute; discriminate|].
    split; [reflexivity | vm_compute; discriminate].
Defined.

Lemma next_errno_reset_and_short_circuit_witness :
  stopped (late_race_world 0x1000) /\
  rip (snd (value (getregs_answer 4711 (late_race_world 0x1000)))) = 0x1000 /\
  outcome_of (asmcovtrace_next 4711) (late_race_world 0x1000) = Returned 0.
Proof.
  assert (H : stopped (late_race_world 0x1000))
    by (exists (W_STOPCODE SIGTRAP); split; reflexivity).
  split; [exact H|]. split; [reflexivity|].
  refine (proj2 (proj2 (proj2 (next_errno_reset_and_short_circuit
            4711 (late_race_world 0x1000) H))) 0x1000 _ _ _).
  - vm_compute; discriminate.
  - reflexivity.
  - split; reflexivity.
Defined.

Lemma open_returns_child_pid_witness :
  -1 <= value (fork_answer (parent_world 4711)) /\
  outcome_of (asmcovtrace_open "/bin/true" ["true"]) (parent_world 4711) =
    Returned 4711 /\
  issued (asmcovtrace_open "/bin/true" ["true"]) (parent_world 4711) =
    [EvFork].
Proof.
  assert (H : -1 <= value (fork_answer (parent_world 4711)))
    by (vm_compute; discriminate).
  destruct (open_returns_child_pid "/bin/true" ["true"]
              (parent_world 4711) H) as (A & P & _).
  assert (R : outcome_of (asmcovtrace_open "/bin/true" ["true"])
                (parent_world 4711) = Returned 4711)
    by (apply P; reflexivity).
  split; [exact H|]. split; [exact R|]. exact (proj2 (proj2 (A 4711 R))).
Defined.

(** ** More about [asmcovtrace_next] *)

(** Every call follows one of the four paths. *)
Lemma next_follows_a_path (pid : Z) (w : world) :
  next_path pid w (asmcovtrace_next pid w).
Proof.
  rewrite next_run.
  destruct (wait_answer w) as [st|] eqn:Hw; [|constructor; assumption].
  destruct (WIFEXITED (value st)) eqn:Hx.
  - rewrite to_ull_WEXITSTATUS. constructor; assumption.
  - destruct (fst (value (getregs_answer pid w)) =? -1) eqn:Hg.
    + replace (after_getregs pid st w) with (refused_in pid st w)
        by (unfold refused_in; rewrite Hg; reflexivity).
      apply path_refused; auto. left. apply Z.eqb_eq, Hg.
    + apply Z.eqb_neq in Hg.
      destruct (fst (value (singlestep_answer pid w)) =? -1) eqn:Hs.
      * replace (after_singlestep pid st w) with (refused_in pid st w)
          by (unfold refused_in; rewrite (succeeds_eqb _ Hg); reflexivity).
        apply path_refused; auto. right. split; [exact Hg|].
        apply Z.eqb_eq, Hs.
      * apply path_step; auto. apply Z.eqb_neq, Hs.
Qed.

Lemma wait_status_of (w : world) (st : reply Z) :
  wait_answer w = Some st -> wait_status w = Some (value st).
Proof. intros H. unfold wait_status. rewrite H. reflexivity. Qed.

Lemma after_failure_returned (w : world) (r : Z) :
  fst (after_failure w) = Returned r -> r = 0 /\ errno w = ESRCH.
Proof.
  unfold after_failure. destruct (errno w =? ESRCH) eqn:E; cbn; intros H.
  - injection H as <-. split; [reflexivity | apply Z.eqb_eq, E].
  - discriminate.
Qed.

Lemma after_failure_aborted (w : world) (eval : Z) (d : diagnostic) :
  fst (after_failure w) = Aborted eval d ->
  eval = 1 /\
  d = {| d_fmt := "ptrace: %d"; d_args := [ArgInt (errno w)];
         d_errno := errno w |} /\
  errno w <> ESRCH.
Proof.
  unfold after_failure. destruct (errno w =? ESRCH) eqn:E; cbn; intros H.
  - discriminate.
  - injection H as <- <-. repeat split. apply Z.eqb_neq, E.
Qed.

(** X1.  Whatever the kernel answers, a value [r] returned by
    [asmcovtrace_next] has one of three origins, told by the status word
    found after the wait (written by the wait, or left as it was by a
    wait that failed: the code does not test what [wait] returns).  The
    word reads as a normal exit with status [r]; or it does not, both
    requests succeeded and the register read found the instruction
    pointer at [r]; or it does not, [r] is 0, a request returned -1 and
    [errno] is [ESRCH] when the function returns. *)
Theorem next_return_explained (pid : Z) (w : world) (r : Z) :
  outcome_of (asmcovtrace_next pid) w = Returned r ->
  exited_with w r \/
  stopped_at pid w r \/
  (r = 0 /\ stopped w /\ request_refused pid w /\
   errno_left (asmcovtrace_next pid) w = ESRCH).
Proof.
  unfold outcome_of, errno_left.
  destruct (next_follows_a_path pid w) as [Hw | st Hw Hx | st Hw Hx Hr
                                          | st Hw Hx Hg Hs];
    cbn [fst snd]; intros H.
  - discriminate.
  - injection H as <-. left. exists (value st).
    split; [apply wait_status_of, Hw|]. split; [exact Hx | reflexivity].
  - right. right. apply after_failure_returned in H as [-> He].
    split; [reflexivity|]. split; [|split; [exact Hr|]].
    + exists (value st). split; [apply wait_status_of, Hw | exact Hx].
    + rewrite after_failure_world. exact He.
  - injection H as <-. right. left. split; [|auto].
    exists (value st). split; [apply wait_status_of, Hw | exact Hx].
Qed.

(** X2.  Whatever the kernel answers, [asmcovtrace_next] ends in [err]
    only on a tracee that did not exit, after a request returned -1 with
    [errno] other than [ESRCH]; the exit status is then 1 and the message
    is "ptrace: %d" with that [errno]. *)
Theorem next_abort_explained
    (pid : Z) (w : world) (eval : Z) (d : diagnostic) :
  outcome_of (asmcovtrace_next pid) w = Aborted eval d ->
  eval = 1 /\
  d_fmt d = "ptrace: %d" /\ d_args d = [ArgInt (d_errno d)] /\
  d_errno d <> ESRCH /\
  stopped w /\ request_refused pid w.
Proof.
  unfold outcome_of.
  destruct (next_follows_a_path pid w) as [Hw | st Hw Hx | st Hw Hx Hr
                                          | st Hw Hx Hg Hs];
    cbn [fst]; intros H; try discriminate.
  apply after_failure_aborted in H as (-> & -> & He). cbn.
  repeat split; auto.
  exists (value st). split; [apply wait_status_of, Hw | exact Hx].
Qed.

(** X3.  The wait of [asmcovtrace_next] is not tied to its argument: when
    it reports an exit, the call ends the same way, in the same world,
    for every [pid] it is given. *)
Theorem next_exit_ignores_pid (pid1 pid2 : Z) (w : world) (c : Z) :
  exited_with w c ->
  asmcovtrace_next pid1 w = asmcovtrace_next pid2 w /\
  outcome_of (asmcovtrace_next pid1) w = Returned c.
Proof.
  intros H. split; [|apply next_run_exited, H].
  destruct H as (status & Hw & Hx & _). unfold wait_status in Hw.
  rewrite !next_run.
  destruct (wait_answer w) as [st|]; [|discriminate].
  cbn in Hw. injection Hw as Hw. rewrite Hw, Hx. reflexivity.
Qed.

(** X4.  Only a status word whose low seven bits are zero is taken as an
    exit.  With any other status, that of a child killed by a signal
    included, the function stores 0 in [errno] and asks for the
    registers; when the process is gone ([ESRCH]) it returns 0. *)
Theorem next_signal_death_is_not_an_exit
    (pid : Z) (w : world) (status : Z) :
  wait_status w = Some status ->
  status mod 128 <> 0 ->
  firstn 3 (issued (asmcovtrace_next pid) w) =
    [EvWait; EvErrnoStore 0; EvPtrace PTRACE_GETREGS pid] /\
  (fails_with (getregs_answer pid w) ESRCH ->
   outcome_of (asmcovtrace_next pid) w = Returned 0).
Proof.
  intros Hw Hs.
  assert (Hx : WIFEXITED status = false).
  { unfold WIFEXITED. rewrite WTERMSIG_mod. apply Z.eqb_neq, Hs. }
  split.
  - rewrite next_issued, Hw, Hx. reflexivity.
  - intros Hg. apply next_run_vanished. split; [|left; exact Hg].
    exists status. split; assumption.
Qed.

(** X5.  On the exit path the value returned is the second byte of the
    status word, [(status / 256) mod 256], between 0 and 255 whatever the
    other bits of the word are. *)
Theorem next_exit_returns_status_byte
    (pid : Z) (w : world) (status : Z) :
  wait_status w = Some status ->
  status mod 128 = 0 ->
  outcome_of (asmcovtrace_next pid) w =
    Returned ((status / 256) mod 256) /\
  0 <= (status / 256) mod 256 <= 255.
Proof.
  intros Hw Hs.
  assert (Hx : WIFEXITED status = true).
  { unfold WIFEXITED. rewrite WTERMSIG_mod. apply Z.eqb_eq, Hs. }
  assert (Hc : WEXITSTATUS status = (status / 256) mod 256).
  { rewrite WEXITSTATUS_mod, Z.shiftr_div_pow2 by lia. reflexivity. }
  split.
  - apply next_run_exited. exists status. auto.
  - rewrite <- Hc. apply WEXITSTATUS_range.
Qed.

(** X6.  Whatever the kernel answers, every request [asmcovtrace_next]
    issues is addressed to its argument [pid]; it creates no process and
    replaces no image. *)
Theorem next_only_traces_pid (pid : Z) (w : world) :
  forallb (addressed_to pid) (issued (asmcovtrace_next pid) w) = true /\
  filter is_spawn (issued (asmcovtrace_next pid) w) = [] /\
  forall (path : string) (argv : list string),
    outcome_of (asmcovtrace_next pid) w <> Replaced path argv.
Proof.
  assert (I : forallb (addressed_to pid) (issued (asmcovtrace_next pid) w)
              = true /\
              filter is_spawn (issued (asmcovtrace_next pid) w) = []).
  { rewrite next_issued.
    destruct (wait_status w) as [status|]; [|split; reflexivity].
    destruct (WIFEXITED status); [split; reflexivity|].
    destruct (fst (value (getregs_answer pid w)) =? -1);
      cbn; rewrite ?Z.eqb_refl; split; reflexivity. }
  destruct I as [I1 I2]. split; [exact I1|]. split; [exact I2|].
  intros path argv. unfold outcome_of.
  destruct (next_follows_a_path pid w); cbn [fst]; try discriminate.
  unfold after_failure. destruct (errno _ =? ESRCH); discriminate.
Qed.

(** X7.  A step that succeeds leaves [errno] at 0 whatever it held at
    entry, unless one of the two requests stores something else; on the
    exit path the function does not touch [errno]: it holds what the wait
    left. *)
Theorem next_errno_left (pid : Z) (w : world) :
  (forall ip : Z,
      stopped_at pid w ip ->
      sets_errno (getregs_answer pid w) = None ->
      sets_errno (singlestep_answer pid w) = None ->
      errno_left (asmcovtrace_next pid) w = 0) /\
  (forall st : reply Z,
      wait_answer w = Some st ->
      WIFEXITED (value st) = true ->
      errno_left (asmcovtrace_next pid) w =
      match sets_errno st with Some v => v | None => errno w end).
Proof.
  unfold errno_left. split.
  - intros ip (Hs & Hg & _ & Hstep) Eg Es.
    apply stopped_inv in Hs as (st & Hw & Hx).
    rewrite next_run, Hw, Hx, (succeeds_eqb _ Hg), (succeeds_eqb _ Hstep).
    unfold after_singlestep, after_getregs. cbn. rewrite Es, Eg. reflexivity.
  - intros st Hw Hx. rewrite next_run, Hw, Hx. reflexivity.
Qed.

(** ** More about [asmcovtrace_open] *)

(** X8.  Whatever the kernel answers, when [asmcovtrace_open] ends in
    [err] the exit status is 1 and the message tells which call failed:
    "fork" when [fork] returned -1, "ptrace" when the child's
    [PTRACE_TRACEME] returned -1, "exec: %s" with the path when the
    child's [execve] returned. *)
Theorem open_abort_explained
    (path : string) (argv : list string) (w : world)
    (eval : Z) (d : diagnostic) :
  outcome_of (asmcovtrace_open path argv) w = Aborted eval d ->
  eval = 1 /\
  ((d_fmt d = "fork" /\ d_args d = [] /\ value (fork_answer w) = -1) \/
   (d_fmt d = "ptrace" /\ d_args d = [] /\
    value (fork_answer w) = 0 /\ fst (value (traceme_answer w)) = -1) \/
   (d_fmt d = "exec: %s" /\ d_args d = [ArgStr path] /\
    value (fork_answer w) = 0 /\ succeeds (traceme_answer w) /\
    execve_answer path argv w <> None)).
Proof.
  unfold outcome_of. rewrite open_run. cbn zeta.
  destruct (value (fork_answer w) =? -1) eqn:E1.
  - cbn. intros H. injection H as <- <-. apply Z.eqb_eq in E1. auto.
  - destruct (value (fork_answer w) =? 0) eqn:E0; [|discriminate].
    apply Z.eqb_eq in E0.
    destruct (fst (value (traceme_answer w)) =? -1) eqn:Et.
    + cbn. intros H. injection H as <- <-. apply Z.eqb_eq in Et.
      split; [reflexivity|]. right. left. auto.
    + apply Z.eqb_neq in Et.
      destruct (execve_answer path argv w) as [r|] eqn:Ex; [|discriminate].
      cbn. intros H. injection H as <- <-.
      split; [reflexivity|]. right. right.
      repeat split; auto. discriminate.
Qed.

(** X9.  Whatever the kernel answers, when a call of [asmcovtrace_open]
    ends with the image replaced, it is the caller's [path] and [argv]
    that were executed, in the child, after a [PTRACE_TRACEME] that did
    not fail: the target never starts untraced. *)
Theorem open_target_starts_traced
    (path : string) (argv : list string) (w : world)
    (p : string) (a : list string) :
  outcome_of (asmcovtrace_open path argv) w = Replaced p a ->
  p = path /\ a = argv /\
  value (fork_answer w) = 0 /\ succeeds (traceme_answer w) /\
  issued (asmcovtrace_open path argv) w =
    [EvFork; EvPtrace PTRACE_TRACEME 0; EvExecve path argv].
Proof.
  unfold outcome_of. intros H.
  assert (K : value (fork_answer w) = 0 /\ succeeds (traceme_answer w) /\
              p = path /\ a = argv).
  { rewrite open_run in H. cbn zeta in H.
    destruct (value (fork_answer w) =? -1); [discriminate|].
    destruct (value (fork_answer w) =? 0) eqn:E0; [|discriminate].
    destruct (fst (value (traceme_answer w)) =? -1) eqn:Et; [discriminate|].
    destruct (execve_answer path argv w); [discriminate|].
    injection H as <- <-.
    split; [apply Z.eqb_eq, E0|]. split; [apply Z.eqb_neq, Et|]. auto. }
  destruct K as (Hf & Ht & -> & ->). repeat split; auto.
  rewrite open_issued, Hf, (succeeds_eqb _ Ht). reflexivity.
Qed.

(** X10.  Whatever the kernel answers, [asmcovtrace_open] never waits for
    the child and never blocks, and the only [ptrace] request it issues
    is the child's [PTRACE_TRACEME] on itself: reading registers and
    stepping are left to [asmcovtrace_next]. *)
Theorem open_never_waits (path : string) (argv : list string) (w : world) :
  filter is_wait (issued (asmcovtrace_open path argv) w) = [] /\
  (forall e : event,
      In e (issued (asmcovtrace_open path argv) w) ->
      is_ptrace e = true -> e = EvPtrace PTRACE_TRACEME 0) /\
  outcome_of (asmcovtrace_open path argv) w <> Blocked.
Proof.
  split; [|split].
  - rewrite open_issued.
    destruct (value (fork_answer w) =? 0); [|reflexivity].
    destruct (fst (value (traceme_answer w)) =? -1); reflexivity.
  - intros e. rewrite open_issued.
    destruct (value (fork_answer w) =? 0);
      [destruct (fst (value (traceme_answer w)) =? -1)|];
      cbn; intros Hin Hp;
      repeat (destruct Hin as [<- | Hin]; [try discriminate; auto|]);
      contradiction.
  - unfold outcome_of. rewrite open_run. cbn zeta.
    destruct (value (fork_answer w) =? -1); [discriminate|].
    destruct (value (fork_answer w) =? 0); [|discriminate].
    destruct (fst (value (traceme_answer w)) =? -1); [discriminate|].
    destruct (execve_answer path argv w); discriminate.
Qed.

(** ** The two functions together *)

Lemma next_log (pid : Z) (w : world) :
  log (snd (asmcovtrace_next pid w)) =
  log w ++ issued (asmcovtrace_next pid) w.
Proof.
  rewrite next_issued. unfold wait_status.
  destruct (next_follows_a_path pid w) as [Hw | st Hw Hx | st Hw Hx Hr
                                          | st Hw Hx Hg Hs];
    rewrite Hw; cbn [option_map snd]; rewrite ?Hx.
  - reflexivity.
  - reflexivity.
  - rewrite after_failure_world. unfold refused_in.
    destruct (fst (value (getregs_answer pid w)) =? -1);
      [apply log_after_getregs | apply log_after_singlestep].
  - rewrite (succeeds_eqb _ Hg). apply log_after_singlestep.
Qed.

(** X11.  In the parent, the identifier [asmcovtrace_open] returns is the
    one a following [asmcovtrace_next] addresses: the calls issued are
    the [fork], the first wait, and the register read and step request
    for the process [fork] created, and the address returned is the one
    that register read found. *)
Theorem open_then_next_steps_the_child
    (path : string) (argv : list string) (w : world) (ip : Z) :
  0 < value (fork_answer w) ->
  stopped_at (value (fork_answer w)) (after_fork w) ip ->
  outcome_of (open_then_next path argv) w = Returned ip /\
  issued (open_then_next path argv) w =
    [EvFork; EvWait; EvErrnoStore 0;
     EvPtrace PTRACE_GETREGS (value (fork_answer w));
     EvPtrace PTRACE_SINGLESTEP (value (fork_answer w))].
Proof.
  intros Hp Hs. set (child := value (fork_answer w)) in *.
  assert (R : open_then_next path argv w =
              asmcovtrace_next child (after_fork w)).
  { unfold open_then_next. cbn [bind Monad_M]. unfold M_bind.
    rewrite open_run_parent by (fold child; lia). reflexivity. }
  unfold outcome_of, issued. rewrite R. split.
  - apply next_run_stopped_at, Hs.
  - rewrite next_log, next_issued.
    destruct Hs as (Hst & Hg & _ & _). destruct Hst as (status & Hw & Hx).
    rewrite Hw, Hx, (succeeds_eqb _ Hg).
    change (log (after_fork w)) with (log w ++ [EvFork]).
    norm_log. apply skipn_own.
Qed.

(** ** The further theorems at concrete inputs *)

Lemma next_return_explained_witness :
  outcome_of (asmcovtrace_next 4711) race_world = Returned 0 /\
  (exited_with race_world 0 \/
   stopped_at 4711 race_world 0 \/
   (0 = 0 /\ stopped race_world /\ request_refused 4711 race_world /\
    errno_left (asmcovtrace_next 4711) race_world = ESRCH)).
Proof.
  assert (H : outcome_of (asmcovtrace_next 4711) race_world = Returned 0)
    by (vm_compute; reflexivity).
  split; [exact H|].
  exact (next_return_explained 4711 race_world 0 H).
Defined.

Lemma next_abort_explained_witness :
  outcome_of (asmcovtrace_next 4711) refused_world =
    Aborted 1 {| d_fmt := "ptrace: %d"; d_args := [ArgInt EPERM];
                 d_errno := EPERM |} /\
  stopped refused_world /\ request_refused 4711 refused_world.
Proof.
  assert (H : outcome_of (asmcovtrace_next 4711) refused_world =
              Aborted 1 {| d_fmt := "ptrace: %d"; d_args := [ArgInt EPERM];
                           d_errno := EPERM |})
    by (vm_compute; reflexivity).
  split; [exact H|].
  exact (proj2 (proj2 (proj2 (proj2
           (next_abort_explained 4711 refused_world _ _ H))))).
Defined.

Lemma next_exit_ignores_pid_witness :
  exited_with (exit_world 3) 3 /\
  asmcovtrace_next 1 (exit_world 3) = asmcovtrace_next 2 (exit_world 3).
Proof.
  assert (H : exited_with (exit_world 3) 3).
  { exists (W_EXITCODE 3 0). split; [reflexivity|].
    split; vm_compute; reflexivity. }
  split; [exact H|].
  exact (proj1 (next_exit_ignores_pid 1 2 (exit_world 3) 3 H)).
Defined.

Lemma next_signal_death_is_not_an_exit_witness :
  wait_status killed_world = Some 9 /\
  9 mod 128 <> 0 /\
  outcome_of (asmcovtrace_next 4711) killed_world = Returned 0.
Proof.
  assert (Hw : wait_status killed_world = Some 9) by reflexivity.
  assert (Hs : 9 mod 128 <> 0) by (vm_compute; discriminate).
  split; [exact Hw|]. split; [exact Hs|].
  apply (proj2 (next_signal_death_is_not_an_exit 4711 killed_world 9 Hw Hs)).
  split; reflexivity.
Defined.

Lemma next_exit_returns_status_byte_witness :
  wait_status (exit_world 3) = Some 768 /\
  768 mod 128 = 0 /\
  outcome_of (asmcovtrace_next 4711) (exit_world 3) =
    Returned ((768 / 256) mod 256).
Proof.
  assert (Hw : wait_status (exit_world 3) = Some 768) by reflexivity.
  assert (Hs : 768 mod 128 = 0) by reflexivity.
  split; [exact Hw|]. split; [exact Hs|].
  exact (proj1 (next_exit_returns_status_byte 4711 (exit_world 3) 768 Hw Hs)).
Defined.

Lemma next_errno_left_witness :
  errno (with_errno ESRCH (stop_world 0x1000)) = ESRCH /\
  errno_left (asmcovtrace_next 4711) (with_errno ESRCH (stop_world 0x1000))
  = 0.
Proof.
  split; [reflexivity|].
  refine (proj1 (next_errno_left 4711 (with_errno ESRCH (stop_world 0x1000)))
            0x1000 _ _ _); [|reflexivity..].
  split; [exists (W_STOPCODE SIGTRAP); split; reflexivity|].
  split; [vm_compute; discriminate|].
  split; [reflexivity | vm_compute; discriminate].
Defined.

Lemma open_abort_explained_witness :
  outcome_of (asmcovtrace_open "/no/such" ["such"]) child_noexec_world =
    Aborted 1 {| d_fmt := "exec: %s"; d_args := [ArgStr "/no/such"];
                 d_errno := ENOENT |} /\
  (1 = 1 /\
   (("exec: %s" = "fork" /\ [ArgStr "/no/such"] = [] /\
     value (fork_answer child_noexec_world) = -1) \/
    ("exec: %s" = "ptrace" /\ [ArgStr "/no/such"] = [] /\
     value (fork_answer child_noexec_world) = 0 /\
     fst (value (traceme_answer child_noexec_world)) = -1) \/
    ("exec: %s" = "exec: %s" /\ [ArgStr "/no/such"] = [ArgStr "/no/such"] /\
     value (fork_answer child_noexec_world) = 0 /\
     succeeds (traceme_answer child_noexec_world) /\
     execve_answer "/no/such" ["such"] child_noexec_world <> None))).
Proof.
  assert (H : outcome_of (asmcovtrace_open "/no/such" ["such"])
                child_noexec_world =
              Aborted 1 {| d_fmt := "exec: %s";
                           d_args := [ArgStr "/no/such"];
                           d_errno := ENOENT |})
    by (vm_compute; reflexivity).
  split; [exact H|].
  exact (open_abort_explained _ _ _ _ _ H).
Defined.

Lemma open_target_starts_traced_witness :
  outcome_of (asmcovtrace_open "/bin/true" ["true"]) child_world =
    Replaced "/bin/true" ["true"] /\
  succeeds (traceme_answer child_world).
Proof.
  assert (H : outcome_of (asmcovtrace_open "/bin/true" ["true"]) child_world
              = Replaced "/bin/true" ["true"])
    by (vm_compute; reflexivity).
  split; [exact H|].
  exact (proj1 (proj2 (proj2 (proj2
           (open_target_starts_traced _ _ _ _ _ H))))).
Defined.

Lemma open_then_next_steps_the_child_witness :
  0 < value (fork_answer (boot (tracee_kernel scenario_A))) /\
  outcome_of (open_then_next "/bin/true" ["true"])
    (boot (tracee_kernel scenario_A)) = Returned 0x1000 /\
  issued (open_then_next "/bin/true" ["true"])
    (boot (tracee_kernel scenario_A)) =
    [EvFork; EvWait; EvErrnoStore 0; EvPtrace PTRACE_GETREGS 4711;
     EvPtrace PTRACE_SINGLESTEP 4711].
Proof.
  assert (Hp : 0 < value (fork_answer (boot (tracee_kernel scenario_A))))
    by reflexivity.
  split; [exact Hp|].
  apply (open_then_next_steps_the_child "/bin/true" ["true"]
           (boot (tracee_kernel scenario_A)) 0x1000 Hp).
  split; [exists (W_STOPCODE SIGTRAP); split; reflexivity|].
  split; [vm_compute; discriminate|].
  split; [reflexivity | vm_compute; discriminate].
Defined.

Lemma next_n_traces_tracee_witness :
  0 <= t_exit scenario_A <= 255 /\
  fst (next_n 2 4711 (boot (tracee_kernel scenario_A))) = [0x1000; 0].
Proof.
  assert (Hc : 0 <= t_exit scenario_A <= 255) by (cbn; lia).
  split; [exact Hc|].
  exact (next_n_traces_tracee scenario_A Hc).
Defined.

(** ** The session after an exit *)

Lemma next_os (pid : Z) (w : world) : os (snd (asmcovtrace_next pid w)) = os w.
Proof.
  destruct (next_follows_a_path pid w); cbn [snd]; try reflexivity.
  rewrite after_failure_world. unfold refused_in.
  destruct (fst (value (getregs_answer pid w)) =? -1); reflexivity.
Qed.

(** The world an exit leaves is a later world of the session, and so is
    every world further calls lead to. *)
Lemma next_exit_opens_later (pid : Z) (w : world) (c : Z) :
  exited_with w c -> later_in_session w (snd (asmcovtrace_next pid w)).
Proof.
  intros H. split; [apply next_os|]. exists [].
  rewrite next_log, (proj2 (next_exit_status_aux pid w c H)). reflexivity.
Qed.

Lemma next_stays_later (pid : Z) (w w2 : world) :
  later_in_session w w2 ->
  later_in_session w (snd (asmcovtrace_next pid w2)).
Proof.
  intros [Hos [later Hlog]]. split; [rewrite next_os; exact Hos|].
  exists (later ++ issued (asmcovtrace_next pid) w2).
  rewrite next_log, Hlog. norm_log. reflexivity.
Qed.

(** A call on a process whose register read is answered [ESRCH] requests
    no step, reports no stop and does not abort: it returns 0, unless the
    status word reads as an exit. *)
Lemma next_on_gone_process (pid : Z) (w : world) :
  fails_with (getregs_answer pid w) ESRCH ->
  filter is_singlestep (issued (asmcovtrace_next pid) w) = [] /\
  (forall ip : Z, ~ stopped_at pid w ip) /\
  (forall (eval : Z) (d : diagnostic),
      outcome_of (asmcovtrace_next pid) w <> Aborted eval d) /\
  (forall r : Z,
      outcome_of (asmcovtrace_next pid) w = Returned r ->
      r = 0 \/ exited_with w r).
Proof.
  intros Hg.
  assert (Hn : ~ succeeds (getregs_answer pid w))
    by (intros Hs; apply Hs; apply Hg).
  split; [|split].
  - rewrite next_issued, (fails_eqb _ _ Hg).
    destruct (wait_status w) as [status|]; [|reflexivity].
    destruct (WIFEXITED status); reflexivity.
  - intros ip (_ & Hs & _). exact (Hn Hs).
  - unfold outcome_of.
    destruct (next_follows_a_path pid w) as [Hw | st Hw Hx | st Hw Hx Hr
                                            | st Hw Hx Hs Hstep];
      cbn [fst].
    + split; intros; discriminate.
    + split; [intros; discriminate|].
      intros r H. injection H as <-. right. exists (value st).
      split; [apply wait_status_of, Hw|]. split; [exact Hx | reflexivity].
    + assert (E : fst (after_failure (refused_in pid st w)) = Returned 0).
      { unfold refused_in. rewrite (fails_eqb _ _ Hg). unfold after_failure.
        rewrite (errno_after_getregs pid st w ESRCH (proj2 Hg)).
        reflexivity. }
      rewrite E. split; [intros; discriminate|].
      intros r H. injection H as <-. left. reflexivity.
    + contradiction.
Qed.

(** C2.  When the wait reports that the traced process exited normally
    with status [c], [asmcovtrace_next] returns [c] and the wait is the
    only call it issues: no register read and no single-step request.
    The session cannot be stepped further: on a kernel for which a
    process whose exit was reported is gone ([ESRCH] to a register read),
    no later call of [asmcovtrace_next] in the session issues a
    single-step request or meets a stopped tracee; it does not abort
    either, and what it returns is 0 or the reading of the status word
    as an exit. *)
Theorem next_exit_status (pid : Z) (w : world) (c : Z) :
  exited_with w c ->
  outcome_of (asmcovtrace_next pid) w = Returned c /\
  issued (asmcovtrace_next pid) w = [EvWait] /\
  filter is_ptrace (issued (asmcovtrace_next pid) w) = [] /\
  (gone_after_exit (os w) pid ->
   forall w2 : world,
     later_in_session w w2 ->
     filter is_singlestep (issued (asmcovtrace_next pid) w2) = [] /\
     (forall ip : Z, ~ stopped_at pid w2 ip) /\
     (forall (eval : Z) (d : diagnostic),
         outcome_of (asmcovtrace_next pid) w2 <> Aborted eval d) /\
     (forall r : Z,
         outcome_of (asmcovtrace_next pid) w2 = Returned r ->
         r = 0 \/ exited_with w2 r)).
Proof.
  intros H. destruct (next_exit_status_aux pid w c H) as [R I].
  split; [exact R|]. split; [exact I|].
  split; [rewrite I; reflexivity|].
  intros Hgone w2 [Hos [later Hlog]].
  apply next_on_gone_process.
  destruct H as (status & Hw & Hx & _). unfold wait_status in Hw.
  destruct (wait_answer w) as [st|] eqn:Ew; [|discriminate].
  cbn in Hw. injection Hw as Hw. rewrite <- Hw in Hx.
  unfold getregs_answer. rewrite Hos, Hlog. norm_log.
  exact (Hgone (log w) (later ++ [EvWait; EvErrnoStore 0]) st Ew Hx).
Qed.

Lemma next_exit_status_witness :
  exited_with (reaped_world 3 0) 3 /\
  gone_after_exit (os (reaped_world 3 0)) 4711 /\
  later_in_session (reaped_world 3 0)
    (snd (asmcovtrace_next 4711 (reaped_world 3 0))) /\
  outcome_of (asmcovtrace_next 4711) (reaped_world 3 0) = Returned 3 /\
  issued (asmcovtrace_next 4711) (reaped_world 3 0) = [EvWait] /\
  filter is_singlestep
    (issued (asmcovtrace_next 4711)
       (snd (asmcovtrace_next 4711 (reaped_world 3 0)))) = [].
Proof.
  assert (H : exited_with (reaped_world 3 0) 3).
  { exists (W_EXITCODE 3 0). split; [reflexivity|].
    split; vm_compute; reflexivity. }
  assert (G : gone_after_exit (os (reaped_world 3 0)) 4711)
    by (intros h later st _ _; split; reflexivity).
  assert (L : later_in_session (reaped_world 3 0)
                (snd (asmcovtrace_next 4711 (reaped_world 3 0))))
    by (split; [reflexivity | exists []; reflexivity]).
  destruct (next_exit_status 4711 (reaped_world 3 0) 3 H)
    as (R & I & _ & Later).
  split; [exact H|]. split; [exact G|]. split; [exact L|].
  split; [exact R|]. split; [exact I|].
  exact (proj1 (Later G _ L)).
Defined.

(** After the exit was reported the calls go on returning, without a
    step: 0 whether the unwritten status word reads as an exit (0) or as
    a stop (0x57f). *)
Example reaped_session_trace :
  fst (next_n 3 4711 (reaped_world 3 0)) = [3; 0; 0] /\
  fst (next_n 3 4711 (reaped_world 3 0x57f)) = [3; 0; 0].
Proof. split; vm_compute; reflexivity. Qed.
